(** * The resilient messaging client layer of nimbus.io

    A shallow embedding of the two request/reply clients of
    [diyapi_tools]:

    - [greenlet_xreq_client.py]      (module [XREQ],      the multiplexed client)
    - [greenlet_resilient_client.py] (module [Resilient], the resilient client)

    The Python methods are written as computations in a state-and-exception
    monad over an explicit world: the heap of dictionaries the callers share
    with the clients, the gevent queues, the zeromq socket, the logger, the
    clock and the uuid generator.  An exception leaves the world as it was
    at the raising statement, as in Python. *)

From Stdlib Require Import ZArith NArith QArith Qcanon String Ascii List.
From stdpp Require Import base numbers option list gmap strings fin_maps.

Set Default Proof Using "Type".
Local Open Scope string_scope.
Local Open Scope list_scope.
Local Open Scope stdpp_scope.

(** ** Python values of the messaging layer *)

(** References to heap-allocated [dict] objects and to gevent [Queue]
    objects.  A control map handed to a client is shared with the caller, so
    it is a reference, not a value. *)
Definition loc := positive.
Definition chan := positive.

(** The contents of a control map: string keys, scalar values rendered as
    strings. *)
Abbreviation dict := (gmap string string).

(** The [body] member of the [Message] namedtuple: [None], a single object
    that is neither a list nor a tuple (a byte string), a list or a tuple of
    byte strings. *)
Inductive body :=
| BNone
| BBytes (segment : string)
| BList (segments : list string)
| BTuple (segments : list string).

(** [_message_format = namedtuple("Message", "control body")] *)
Record Message := mkMessage { control : loc; mbody : body }.

(** The exceptions the two modules can raise. *)
Inductive exn :=
| AttributeError
| KeyError
| IndexError
| ValueError
| TypeError
| AssertionError
| ZMQError (errno : Z)
| DuplicateRequestId.

Definition EAGAIN : Z := 11.

Inductive level := DEBUG | INFO | WARN | ERROR.

(** ** The world outside the client objects *)

Record env := mkEnv {
  heap : gmap loc dict;                    (* the dict objects *)
  next_loc : loc;
  chans : gmap chan (list (loc * body));   (* gevent Queue objects holding replies *)
  next_chan : chan;
  sock_sent : list (string * bool);        (* frames given to send, with SNDMORE *)
  sock_inbox : list (string * list string);(* whole multipart messages waiting *)
  sock_partial : list string;              (* unread frames of the current message *)
  sock_fault : option Z;                   (* a pending socket error other than EAGAIN *)
  log : list (level * string);
  now : Qc;                                (* what time.time() returns *)
  uuid_calls : nat                         (* how many uuids were drawn *)
}.

Definition set_heap (h : gmap loc dict) (e : env) : env :=
  mkEnv h (next_loc e) (chans e) (next_chan e) (sock_sent e) (sock_inbox e)
        (sock_partial e) (sock_fault e) (log e) (now e) (uuid_calls e).
Definition set_next_loc (l : loc) (e : env) : env :=
  mkEnv (heap e) l (chans e) (next_chan e) (sock_sent e) (sock_inbox e)
        (sock_partial e) (sock_fault e) (log e) (now e) (uuid_calls e).
Definition set_chans (c : gmap chan (list (loc * body))) (e : env) : env :=
  mkEnv (heap e) (next_loc e) c (next_chan e) (sock_sent e) (sock_inbox e)
        (sock_partial e) (sock_fault e) (log e) (now e) (uuid_calls e).
Definition set_next_chan (c : chan) (e : env) : env :=
  mkEnv (heap e) (next_loc e) (chans e) c (sock_sent e) (sock_inbox e)
        (sock_partial e) (sock_fault e) (log e) (now e) (uuid_calls e).
Definition set_sock_sent (s : list (string * bool)) (e : env) : env :=
  mkEnv (heap e) (next_loc e) (chans e) (next_chan e) s (sock_inbox e)
        (sock_partial e) (sock_fault e) (log e) (now e) (uuid_calls e).
Definition set_sock_in (i : list (string * list string)) (p : list string)
  (e : env) : env :=
  mkEnv (heap e) (next_loc e) (chans e) (next_chan e) (sock_sent e) i
        p (sock_fault e) (log e) (now e) (uuid_calls e).
Definition set_log (l : list (level * string)) (e : env) : env :=
  mkEnv (heap e) (next_loc e) (chans e) (next_chan e) (sock_sent e) (sock_inbox e)
        (sock_partial e) (sock_fault e) l (now e) (uuid_calls e).
Definition set_uuid_calls (n : nat) (e : env) : env :=
  mkEnv (heap e) (next_loc e) (chans e) (next_chan e) (sock_sent e) (sock_inbox e)
        (sock_partial e) (sock_fault e) (log e) (now e) n.

(** A world is the environment together with the attributes of [self]. *)
Record world (C : Type) := mkWorld { w_env : env; self : C }.
Arguments mkWorld {C} _ _.
Arguments w_env {C} _.
Arguments self {C} _.

(** ** The monad of Python statements *)

Inductive outcome (A : Type) :=
| Return (a : A)
| Raise (e : exn).
Arguments Return {A} _.
Arguments Raise {A} _.

Definition M (C A : Type) : Type := world C → outcome A * world C.

Global Instance M_ret {C} : MRet (M C) := λ A a w, (Return a, w).
Global Instance M_bind {C} : MBind (M C) := λ A B f m w,
  match m w with
  | (Return a, w') => f a w'
  | (Raise e, w') => (Raise e, w')
  end.

Definition raise {C A} (e : exn) : M C A := λ w, (Raise e, w).
Definition get_env {C} : M C env := λ w, (Return (w_env w), w).
Definition mod_env {C} (f : env → env) : M C unit :=
  λ w, (Return tt, mkWorld (f (w_env w)) (self w)).
Definition get_self {C} : M C C := λ w, (Return (self w), w).
Definition mod_self {C} (f : C → C) : M C unit :=
  λ w, (Return tt, mkWorld (w_env w) (f (self w))).

(** [try: m  except e: h e] *)
Definition try_except {C A} (m : M C A) (h : exn → M C A) : M C A := λ w,
  match m w with
  | (Return a, w') => (Return a, w')
  | (Raise e, w') => h e w'
  end.

(** [try: m  finally: f] *)
Definition try_finally {C A} (m : M C A) (f : M C unit) : M C A := λ w,
  match m w with
  | (Return a, w') =>
      match f w' with (Return _, w'') => (Return a, w'') | (Raise e, w'') => (Raise e, w'') end
  | (Raise e, w') =>
      match f w' with (Return _, w'') => (Raise e, w'') | (Raise e', w'') => (Raise e', w'') end
  end.

(** ** Primitives: logger, heap, time, uuid *)

Definition log_msg {C} (l : level) (text : string) : M C unit :=
  mod_env (λ e, set_log (log e ++ [(l, text)]) e).

(** The dict a reference denotes.  Every reference the program holds was
    allocated, so the default is not reached from such worlds. *)
Definition deref (l : loc) (e : env) : dict := default ∅ (heap e !! l).

Definition read_dict {C} (l : loc) : M C dict := e ← get_env; mret (deref l e).

(** [d[key]] *)
Definition getitem {C} (l : loc) (key : string) : M C string :=
  d ← read_dict l;
  match d !! key with
  | Some v => mret v
  | None => raise KeyError
  end.

(** [d[key] = v] *)
Definition setitem {C} (l : loc) (key v : string) : M C unit :=
  mod_env (λ e, set_heap (<[l := <[key := v]> (deref l e)]> (heap e)) e).

(** A dict display [{...}] or the result of parsing: a new object. *)
Definition new_dict {C} (d : dict) : M C loc := λ w,
  let e := w_env w in
  let l := next_loc e in
  (Return l, mkWorld (set_next_loc (Pos.succ l) (set_heap (<[l := d]> (heap e)) e)) (self w)).

(** [Queue(maxsize=None)] *)
Definition new_Queue {C} : M C chan := λ w,
  let e := w_env w in
  let c := next_chan e in
  (Return c, mkWorld (set_next_chan (Pos.succ c) (set_chans (<[c := []]> (chans e)) e)) (self w)).

(** [q.put(item)] on an unbounded queue *)
Definition Queue_put {C} (c : chan) (item : loc * body) : M C unit :=
  mod_env (λ e, set_chans (<[c := default [] (chans e !! c) ++ [item]]> (chans e)) e).

Definition time_time {C} : M C Qc := e ← get_env; mret (now e).

(** Lower-case hexadecimal digits, most significant first, in a fixed
    width: ['%032x' % self.int], the [hex] property of a UUID. *)
Definition hex_digit (d : N) : ascii :=
  match d with
  | 0%N => "0" | 1%N => "1" | 2%N => "2" | 3%N => "3" | 4%N => "4" | 5%N => "5"
  | 6%N => "6" | 7%N => "7" | 8%N => "8" | 9%N => "9" | 10%N => "a" | 11%N => "b"
  | 12%N => "c" | 13%N => "d" | 14%N => "e" | _ => "f"
  end%char.

Fixpoint hex_fixed (width : nat) (v : N) (acc : string) : string :=
  match width with
  | O => acc
  | S w => hex_fixed w (v / 16)%N (String (hex_digit (v mod 16)%N) acc)
  end.

Definition uuid_hex (v : N) : string := hex_fixed 32 v "".

(** ** The zeromq socket and the library calls the clients make

    [json.dumps], [json.loads] and [uuid.uuid1] are library functions: the
    development is parametric in them.  [json_loads] is [json.loads] on the
    frames the model covers: [Some d] for the JSON text of a control map
    [d], [None] for a frame that is not JSON at all, where [json.loads]
    raises [ValueError].  A frame that holds JSON of another kind (a list, a
    string, a number, null) is outside the model: [recv_json] would return
    that value, which no [dict] stands for.  [uuid1 n] is the 128-bit
    integer of the [n]-th UUID drawn. *)

Section Runtime.
Variable json_dumps : dict → string.
Variable json_loads : string → option dict.
Variable uuid1 : nat → N.
Context {C : Type}.

(** [uuid.uuid1().hex] *)
Definition uuid1_hex : M C string := λ w,
  let e := w_env w in
  (Return (uuid_hex (uuid1 (uuid_calls e))),
   mkWorld (set_uuid_calls (S (uuid_calls e)) e) (self w)).

(** [socket.send(frame, flags)] *)
Definition sock_send (frame : string) (sndmore : bool) : M C unit :=
  mod_env (λ e, set_sock_sent (sock_sent e ++ [(frame, sndmore)]) e).

(** [socket.send_json(obj, flags)]: the dict is serialized as it is now. *)
Definition sock_send_json (obj : loc) (sndmore : bool) : M C unit :=
  d ← read_dict obj; sock_send (json_dumps d) sndmore.

(** [socket.recv(zmq.NOBLOCK)]: the next frame of the message being read,
    or the first frame of the next message; [EAGAIN] when nothing waits. *)
Definition sock_recv_noblock : M C string := λ w,
  let e := w_env w in
  match sock_fault e with
  | Some errno => (Raise (ZMQError errno), w)
  | None =>
      match sock_partial e with
      | f :: rest => (Return f, mkWorld (set_sock_in (sock_inbox e) rest e) (self w))
      | [] =>
          match sock_inbox e with
          | (f, rest) :: msgs => (Return f, mkWorld (set_sock_in msgs rest e) (self w))
          | [] => (Raise (ZMQError EAGAIN), w)
          end
      end
  end.

(** [socket.recv_json(zmq.NOBLOCK)]: the parsed object is a new dict; a
    frame that is not JSON at all raises [ValueError]. *)
Definition sock_recv_json : M C loc :=
  frame ← sock_recv_noblock;
  match json_loads frame with
  | Some d => new_dict d
  | None => raise ValueError
  end.

(** [while socket.rcvmore(): body.append(socket.recv())].  [rcvmore] holds
    exactly while frames of the current message are unread, and [recv] then
    returns the next of them. *)
Fixpoint recv_while_rcvmore (unread : list string) (body : list string)
  : M C (list string) :=
  match unread with
  | [] => mret body
  | f :: rest =>
      mod_env (λ e, set_sock_in (sock_inbox e) rest e);;
      recv_while_rcvmore rest (body ++ [f])
  end.

Definition recv_body_frames : M C (list string) :=
  e ← get_env; recv_while_rcvmore (sock_partial e) [].

(** [for segment in body[:-1]: socket.send(segment, zmq.SNDMORE)] *)
Fixpoint send_each_more (segments : list string) : M C unit :=
  match segments with
  | [] => mret tt
  | s :: rest => sock_send s true;; send_each_more rest
  end.

(** The framing both [_send_message] methods share, from
    [if message.body is not None:] on. *)
Definition send_frames (ctl : loc) (b : body) : M C unit :=
  match b with
  | BNone => sock_send_json ctl false
  | _ =>
      sock_send_json ctl true;;
      let segments :=
        match b with
        | BList l | BTuple l => l
        | BBytes s => [s]           (* message._replace(body=[message.body, ]) *)
        | BNone => []
        end in
      send_each_more (removelast segments);;
      match last segments with
      | Some s => sock_send s false
      | None => raise IndexError     (* message.body[-1] of an empty sequence *)
      end
  end.

(** The [try: recv_json  except zmq.ZMQError] of both [_receive_message]
    methods: [None] when the socket would have blocked. *)
Definition recv_json_or_none : M C (option loc) :=
  try_except (l ← sock_recv_json; mret (Some l))
    (λ e, match e with
          | ZMQError errno =>
              if decide (errno = EAGAIN)
              then log_msg WARN "socket would have blocked";; mret None
              else raise e
          | _ => raise e
          end).

End Runtime.

(** What the transport does with the frames given to [send]: frames up to
    and including the first one without SNDMORE form one multipart message,
    delivered whole; an unfinished message is not delivered. *)
Fixpoint group_frames (frames : list (string * bool)) (cur : list string)
  : list (string * list string) :=
  match frames with
  | [] => []
  | (f, more) :: rest =>
      if more then group_frames rest (cur ++ [f])
      else match cur ++ [f] with
           | first :: others => (first, others) :: group_frames rest []
           | [] => group_frames rest []
           end
  end.

(** * The multiplexed client: [GreenletXREQClient] *)

Module XREQ.

Record client := mkClient {
  _send_queue : list Message;            (* gevent Queue(maxsize=None) *)
  _delivery_queues : gmap string chan    (* dict: request-id -> Queue *)
}.

Definition set_send_queue (q : list Message) (c : client) : client :=
  mkClient q (_delivery_queues c).
Definition set_delivery_queues (d : gmap string chan) (c : client) : client :=
  mkClient (_send_queue c) d.

Section Methods.
Variable json_dumps : dict → string.
Variable json_loads : string → option dict.
Variable uuid1 : nat → N.

Definition __init__ (e : env) : world client :=
  mkWorld (set_log (log e ++ [(DEBUG, "connecting to %s")]) e) (mkClient [] ∅).

Definition queue_message_for_send (message_control : loc) (data : body)
  : M client chan :=
  d ← read_dict message_control;
  (if decide (is_Some (d !! "request-id")) then mret tt
   else u ← uuid1_hex uuid1; setitem message_control "request-id" u);;
  q ← new_Queue;
  request_id ← getitem message_control "request-id";
  mod_self (λ c, set_delivery_queues (<[request_id := q]> (_delivery_queues c)) c);;
  mod_self (λ c, set_send_queue (_send_queue c ++ [mkMessage message_control data]) c);;
  request_id ← getitem message_control "request-id";
  c ← get_self;
  match _delivery_queues c !! request_id with
  | Some q => mret q
  | None => raise KeyError
  end.

Definition _send_message (message : Message) : M client unit :=
  log_msg INFO "sending message: %s";;
  send_frames json_dumps (control message) (mbody message).

(** Lines 118 to 121: [None] for no segment, the segment itself for one,
    the list otherwise. *)
Definition unwrap_body (frames : list string) : body :=
  match frames with
  | [] => BNone
  | [segment] => BBytes segment
  | _ => BList frames
  end.

Definition _receive_message : M client (option Message) :=
  r ← recv_json_or_none json_loads;
  match r with
  | None => mret None
  | Some ctl =>
      body ← recv_body_frames;
      mret (Some (mkMessage ctl (unwrap_body body)))
  end.

(** [while not self._send_queue.empty(): self._send_message(get_nowait())] *)
Fixpoint drain (queue : list Message) : M client unit :=
  match queue with
  | [] => mret tt
  | message :: rest =>
      mod_self (set_send_queue rest);;
      _send_message message;;
      drain rest
  end.

Definition _pollster_callback (readable writable : bool) : M client unit :=
  (if writable then c ← get_self; drain (_send_queue c) else mret tt);;
  if readable then
    r ← _receive_message;
    match r with
    | None => mret tt
    | Some message =>
        d ← read_dict (control message);
        match d !! "request-id" with
        | None => log_msg ERROR "message has no 'request-id' %s"
        | Some request_id =>
            c ← get_self;
            match _delivery_queues c !! request_id with
            | None => log_msg ERROR "No delivery queue for %s"
            | Some delivery_queue =>
                mod_self (λ c, set_delivery_queues (delete request_id (_delivery_queues c)) c);;
                Queue_put delivery_queue (control message, mbody message)
            end
        end
    end
  else mret tt.

End Methods.
End XREQ.

(** * The resilient client: [GreelletResilientClient] *)

Module Resilient.

Definition _ack_timeout : Qc := Q2Qc 10.
Definition _handshake_retry_interval : Qc := Q2Qc 60.
Definition polling_interval : Qc := Q2Qc 3.

Definition _status_handshaking : Z := 1.
Definition _status_connected : Z := 2.
Definition _status_disconnected : Z := 3.

(** What [self._pending_message], an element of the deque or a local
    [message] can hold: [None], a [Message] namedtuple, or a plain dict. *)
Inductive pyval :=
| VNone
| VMessage (m : Message)
| VDict (d : loc).

Global Instance body_eq_dec : EqDecision body.
Proof. solve_decision. Defined.
Global Instance Message_eq_dec : EqDecision Message.
Proof. solve_decision. Defined.
Global Instance pyval_eq_dec : EqDecision pyval.
Proof. solve_decision. Defined.

Record client := mkClient {
  _send_queue : list pyval;                     (* collections.deque *)
  _pending_message : pyval;
  _pending_message_start_time : option Qc;
  _send_queue_lock : nat;                       (* RLock: its hold count *)
  _client_tag : string;
  _client_address : string;
  _deliverator : gmap string chan;
  _status : Z;
  _status_time : Qc
}.

Definition set_send_queue (q : list pyval) (c : client) : client :=
  mkClient q (_pending_message c) (_pending_message_start_time c) (_send_queue_lock c)
    (_client_tag c) (_client_address c) (_deliverator c) (_status c) (_status_time c).
Definition set_pending_message (p : pyval) (c : client) : client :=
  mkClient (_send_queue c) p (_pending_message_start_time c) (_send_queue_lock c)
    (_client_tag c) (_client_address c) (_deliverator c) (_status c) (_status_time c).
Definition set_pending_message_start_time (t : option Qc) (c : client) : client :=
  mkClient (_send_queue c) (_pending_message c) t (_send_queue_lock c)
    (_client_tag c) (_client_address c) (_deliverator c) (_status c) (_status_time c).
Definition set_deliverator (d : gmap string chan) (c : client) : client :=
  mkClient (_send_queue c) (_pending_message c) (_pending_message_start_time c)
    (_send_queue_lock c) (_client_tag c) (_client_address c) d (_status c) (_status_time c).
Definition set_status (s : Z) (c : client) : client :=
  mkClient (_send_queue c) (_pending_message c) (_pending_message_start_time c)
    (_send_queue_lock c) (_client_tag c) (_client_address c) (_deliverator c) s (_status_time c).
Definition set_status_time (t : Qc) (c : client) : client :=
  mkClient (_send_queue c) (_pending_message c) (_pending_message_start_time c)
    (_send_queue_lock c) (_client_tag c) (_client_address c) (_deliverator c) (_status c) t.

(** The attributes of a [collections.deque].  The type has no instance
    dictionary, so an object has these and no others. *)
Definition deque_attributes : list string :=
  ["append"; "appendleft"; "clear"; "count"; "extend"; "extendleft"; "maxlen";
   "pop"; "popleft"; "remove"; "reverse"; "rotate"].

(** [self._send_queue.<name>] *)
Definition send_queue_getattr (name : string) : M client unit :=
  if bool_decide (name ∈ deque_attributes) then mret tt else raise AttributeError.

(** [self._send_queue.lock.acquire()] and [self._send_queue.lock.release()]:
    the lock is looked up on the deque (the RLock itself was stored as
    [self._send_queue_lock]).  No attribute of a deque has an [acquire] or a
    [release] either. *)
Definition send_queue_lock_acquire : M client unit :=
  send_queue_getattr "lock";; raise AttributeError.
Definition send_queue_lock_release : M client unit :=
  send_queue_getattr "lock";; raise AttributeError.

(** [self._send_queue.put(message)]: [put] is looked up on the deque. *)
Definition send_queue_put (message : pyval) : M client unit :=
  send_queue_getattr "put";; raise AttributeError.

(** [v.control] and [v.body]: attributes of the namedtuple only. *)
Definition getattr_control (v : pyval) : M client loc :=
  match v with
  | VMessage m => mret (control m)
  | _ => raise AttributeError
  end.
Definition getattr_body (v : pyval) : M client body :=
  match v with
  | VMessage m => mret (mbody m)
  | _ => raise AttributeError
  end.

(** [v[key]] *)
Definition subscript (v : pyval) (key : string) : M client string :=
  match v with
  | VDict d => getitem d key
  | _ => raise TypeError      (* None and tuples have no string subscript *)
  end.

(** Modelled from the spec: [Deliverator.add_request], the registration
    half of the Delivery Correlator, whose class is not among the sources.
    It creates a fresh one-shot channel, stores it under the request-id and
    returns it; it fails with [DuplicateRequestId] if the id is registered. *)
Definition add_request (request_id : string) : M client chan :=
  c ← get_self;
  match _deliverator c !! request_id with
  | Some _ => raise DuplicateRequestId
  | None =>
      q ← new_Queue;
      mod_self (λ c, set_deliverator (<[request_id := q]> (_deliverator c)) c);;
      mret q
  end.

Section Methods.
Variable json_dumps : dict → string.
Variable json_loads : string → option dict.
Variable uuid1 : nat → N.

Definition _send_message (message : pyval) : M client unit :=
  ctl ← getattr_control message;
  log_msg INFO "sending message: %s";;
  c ← get_self;
  setitem ctl "client-tag" (_client_tag c);;
  b ← getattr_body message;
  send_frames json_dumps ctl b.

Definition _send_handshake : M client unit :=
  log_msg INFO "sending handshake";;
  u ← uuid1_hex uuid1;
  c ← get_self;
  message ← new_dict (<["message-type" := "resilient-server-handshake"]>
                     (<["request-id" := u]>
                     (<["client-tag" := _client_tag c]>
                     (<["client-address" := _client_address c]> ∅))));
  send_queue_lock_acquire;;
  _send_message (VMessage (mkMessage message BNone));;
  mod_self (set_pending_message (VDict message));;
  t ← time_time;
  mod_self (set_pending_message_start_time (Some t));;
  send_queue_lock_release;;
  mod_self (set_status _status_handshaking);;
  t ← time_time;
  mod_self (set_status_time t).

(** The constructor: the attributes are assigned, then the handshake is
    sent.  The world is returned with the outcome, since the object exists
    whether or not [__init__] completes. *)
Definition __init__ (client_tag client_address : string)
  (deliverator : gmap string chan) (e : env) : outcome unit * world client :=
  let e := set_log (log e ++ [(DEBUG, "connecting")]) e in
  _send_handshake
    (mkWorld e (mkClient [] VNone None 0 client_tag client_address deliverator
                         _status_disconnected (now e))).

(** The block of [queue_message_for_send] between acquire and release,
    lines 87 to 92. *)
Definition queue_locked (message : pyval) : M client unit :=
  c ← get_self;
  if decide (_status c = _status_connected ∧ _pending_message c = VNone) then
    _send_message message;;
    mod_self (set_pending_message message);;
    t ← time_time;
    mod_self (set_pending_message_start_time (Some t))
  else send_queue_put message.

Definition queue_message_for_send (message_control : loc) (data : body)
  : M client chan :=
  d ← read_dict message_control;
  (if decide (is_Some (d !! "request-id")) then mret tt
   else u ← uuid1_hex uuid1; setitem message_control "request-id" u);;
  request_id ← getitem message_control "request-id";
  delivery_channel ← add_request request_id;
  let message := VMessage (mkMessage message_control data) in
  send_queue_lock_acquire;;
  queue_locked message;;
  send_queue_lock_release;;
  mret delivery_channel.

Definition _receive_message : M client (option loc) :=
  recv_json_or_none json_loads.

(** The [try:] block of [_pollster_callback], lines 124 to 152; [message]
    is the dict [recv_json] returned. *)
Definition callback_locked (message : loc) : M client unit :=
  c ← get_self;
  if decide (_pending_message c = VNone) then
    _ ← getattr_control (VDict message);   (* message.control, for the log line *)
    log_msg ERROR "Unexpected message: %s"
  else
    pending_control ← getattr_control (_pending_message c);
    expected_request_id ← getitem pending_control "request-id";
    request_id ← subscript (VDict message) "request-id";
    if decide (request_id ≠ expected_request_id) then
      log_msg ERROR "unknown ack %s expecting %s"
    else
      pending_control ← getattr_control (_pending_message c);
      message_type ← getitem pending_control "message-type";
      (if decide (message_type = "resilient-server-handshake") then
         (if decide (_status c = _status_handshaking) then mret tt
          else raise AssertionError);;
         mod_self (set_status _status_connected);;
         t ← time_time;
         mod_self (set_status_time t)
       else mret tt);;
      mod_self (set_pending_message VNone);;
      mod_self (set_pending_message_start_time None);;
      c ← get_self;
      match _send_queue c with
      | [] => mret tt                       (* popleft: IndexError, return *)
      | message_to_send :: rest =>
          mod_self (set_send_queue rest);;
          _send_message message_to_send;;
          mod_self (set_pending_message (VDict message));;
          t ← time_time;
          mod_self (set_pending_message_start_time (Some t))
      end.

Definition _pollster_callback (readable writable : bool) : M client unit :=
  r ← _receive_message;
  match r with
  | None => mret tt
  | Some message =>
      send_queue_lock_acquire;;
      try_finally (callback_locked message) send_queue_lock_release
  end.

(** [time.time() - start]: a [TypeError] when [start] is [None]. *)
Definition elapsed_since (start : option Qc) : M client Qc :=
  t ← time_time;
  match start with
  | Some t0 => mret (t - t0)%Qc
  | None => raise TypeError
  end.

(** The connected branch of [run] between acquire and release, lines 190
    to 203. *)
Definition run_connected_locked : M client unit :=
  c ← get_self;
  if decide (_pending_message c ≠ VNone) then
    elapsed_time ← elapsed_since (_pending_message_start_time c);
    if decide (_ack_timeout < elapsed_time)%Qc then
      log_msg WARN "timeout waiting ack: treating as disconnect %s";;
      mod_self (set_status _status_disconnected);;
      t ← time_time;
      mod_self (set_status_time t);;
      mod_self (λ c, set_send_queue (_pending_message c :: _send_queue c) c);;
      mod_self (set_pending_message VNone);;
      mod_self (set_pending_message_start_time None)
    else mret tt
  else mret tt.

(** The handshaking branch of [run] between acquire and release, lines 211
    to 218. *)
Definition run_handshaking_locked : M client unit :=
  c ← get_self;
  (if decide (_pending_message c ≠ VNone) then mret tt else raise AssertionError);;
  elapsed_time ← elapsed_since (_pending_message_start_time c);
  if decide (_ack_timeout < elapsed_time)%Qc then
    log_msg WARN "timeout waiting handshake ack";;
    mod_self (set_status _status_disconnected);;
    t ← time_time;
    mod_self (set_status_time t);;
    mod_self (set_pending_message VNone);;
    mod_self (set_pending_message_start_time None)
  else mret tt.

(** [run] answers the list of its next invocations: the times at which
    [self.run] is to be called again. *)
Definition run (halt_event_is_set : bool) : M client (list Qc) :=
  if halt_event_is_set then
    log_msg INFO "halt event is set";; mret []
  else
    c ← get_self;
    (if decide (_status c = _status_connected) then
       send_queue_lock_acquire;;
       run_connected_locked;;
       send_queue_lock_release
     else if decide (_status c = _status_disconnected) then
       elapsed_time ← elapsed_since (Some (_status_time c));
       if decide (_handshake_retry_interval < elapsed_time)%Qc
       then _send_handshake else mret tt
     else if decide (_status c = _status_handshaking) then
       send_queue_lock_acquire;;
       run_handshaking_locked;;
       send_queue_lock_release
     else log_msg ERROR "unknown status '%s'");;
    t ← time_time;
    mret [(t + polling_interval)%Qc].

End Methods.
End Resilient.

(** * Vocabulary of the statements *)

(** The socket holds a reply: no fault, no half-read message, and
    [(frame, rest)] first among the waiting messages. *)
Definition reply_waiting {C} (w : world C) (frame : string) (rest : list string) : Prop :=
  sock_fault (w_env w) = None ∧ sock_partial (w_env w) = [] ∧
  ∃ msgs, sock_inbox (w_env w) = (frame, rest) :: msgs.

(** The frames an operation gave to the socket. *)
Definition transmitted {C} (w w' : world C) : list (string * bool) :=
  drop (length (sock_sent (w_env w))) (sock_sent (w_env w')).

(** The segments [_send_message] iterates over, after the wrapping of a
    body that is neither list nor tuple. *)
Definition segments_of (b : body) : list string :=
  match b with
  | BNone => []
  | BBytes s => [s]
  | BList l | BTuple l => l
  end.

(** A body [_send_message] can frame: [None], a single object, or a
    sequence with at least one segment. *)
Definition framable (b : body) : Prop := segments_of b ≠ [] ∨ b = BNone.

(** What decoding is said to give back for an encoded body: [None] for an
    absent body, the bare segment for a single object or a sequence of one,
    the sequence of segments otherwise. *)
Definition body_after_roundtrip (b : body) : body :=
  match b with
  | BNone => BNone
  | BBytes s => BBytes s
  | BList [s] | BTuple [s] => BBytes s
  | BList l | BTuple l => BList l
  end.

(** The heap after [queue_message_for_send] of either client, for the
    control map at [l]: the map gains the key "request-id" if it lacks it,
    and no other object changes. *)
Definition heap_after_queue (uuid1 : nat → N) (l : loc) (e : env) : gmap loc dict :=
  match deref l e !! "request-id" with
  | Some _ => heap e
  | None => <[l := <["request-id" := uuid_hex (uuid1 (uuid_calls e))]> (deref l e)]> (heap e)
  end.

Definition is_hex_digit (a : ascii) : Prop :=
  a ∈ list_ascii_of_string "0123456789abcdef".

Module ResilientSpec.
Import Resilient.

(** The entry points of the resilient client. *)
Inductive op :=
| Construct (client_tag client_address : string) (deliverator : gmap string chan)
| QueueMessageForSend (message_control : loc) (data : body)
| PollsterCallback (readable writable : bool)
| Run (halt_event_is_set : bool).

Definition forget {A C} (r : outcome A * world C) : outcome unit * world C :=
  (match r.1 with Return _ => Return tt | Raise e => Raise e end, r.2).

Section Exec.
Variable json_dumps : dict → string.
Variable json_loads : string → option dict.
Variable uuid1 : nat → N.

(** The world an entry point leaves, with how it ended. *)
Definition exec (o : op) (w : world client) : outcome unit * world client :=
  match o with
  | Construct tag address deliverator =>
      __init__ json_dumps uuid1 tag address deliverator (w_env w)
  | QueueMessageForSend message_control data =>
      forget (queue_message_for_send json_dumps uuid1 message_control data w)
  | PollsterCallback readable writable =>
      _pollster_callback json_dumps json_loads readable writable w
  | Run halt => forget (run json_dumps uuid1 halt w)
  end.

(** A multipart message on the wire that is the handshake envelope. *)
Definition is_handshake (msg : string * list string) : Prop :=
  ∃ d, msg = (json_dumps d, [])
       ∧ d !! "message-type" = Some "resilient-server-handshake".

End Exec.

(** What an operation may not change when it fails to take the lock: the
    queue, the pending slot, the status, and the frames sent. *)
Definition same_state_machine (w w' : world client) : Prop :=
  _send_queue (self w') = _send_queue (self w)
  ∧ _pending_message (self w') = _pending_message (self w)
  ∧ _pending_message_start_time (self w') = _pending_message_start_time (self w)
  ∧ _status (self w') = _status (self w)
  ∧ _status_time (self w') = _status_time (self w)
  ∧ sock_sent (w_env w') = sock_sent (w_env w).

(** The pending slot is occupied only while handshaking or connected. *)
Definition pending_slot_invariant (w : world client) : Prop :=
  _pending_message (self w) ≠ VNone →
  _status (self w) = _status_handshaking ∨ _status (self w) = _status_connected.

End ResilientSpec.

(** * Stand-ins and sample worlds for the examples *)

(** A small text codec standing in for JSON in the examples: a control map
    travels as [key=value;] fields. *)
Definition sample_dumps (d : dict) : string :=
  foldr (λ kv s, kv.1 +:+ "=" +:+ kv.2 +:+ ";" +:+ s) "" (map_to_list d).

Fixpoint sample_loads_from (s : string) (key : option string) (cur : string)
  (d : dict) : option dict :=
  match s with
  | EmptyString =>
      match key, cur with
      | None, EmptyString => Some d
      | _, _ => None
      end
  | String c s' =>
      if Ascii.eqb c "="
      then match key with
           | None => sample_loads_from s' (Some cur) "" d
           | Some _ => None
           end
      else if Ascii.eqb c ";"
      then match key with
           | Some k => sample_loads_from s' None "" (<[k := cur]> d)
           | None => None
           end
      else sample_loads_from s' key (cur +:+ String c "") d
  end.

Definition sample_loads (frame : string) : option dict :=
  sample_loads_from frame None "" ∅.

Definition sample_uuid1 (n : nat) : N := (N.of_nat n + 2 ^ 100)%N.

Definition env0 : env :=
  mkEnv ∅ 1%positive ∅ 1%positive [] [] [] None [] (Q2Qc 0) 0.

(** A caller's control map at address 1, with and without a request-id. *)
Definition put_r1 : dict := <["message-type" := "put"]> {["request-id" := "r1"]}.
Definition put_anonymous : dict := {["message-type" := "put"]}.

Definition env_with (d : dict) : env :=
  set_next_loc 2%positive (set_heap {[1%positive := d]} env0).

(** The multiplexed client just built, and after one request "r1". *)
Definition xreq_fresh : world XREQ.client := XREQ.__init__ (env_with put_r1).
Definition xreq_r1 : world XREQ.client :=
  (XREQ.queue_message_for_send sample_uuid1 1%positive (BBytes "abc") xreq_fresh).2.

(** A reply arrives on the socket of a world. *)
Definition arrive {C} (msg : string * list string) (w : world C) : world C :=
  mkWorld (set_sock_in (sock_inbox (w_env w) ++ [msg]) (sock_partial (w_env w)) (w_env w))
          (self w).

(** The frames a peer sent reach the socket of a world. *)
Definition deliver {C} (frames : list (string * bool)) (w : world C) : world C :=
  mkWorld (set_sock_in (sock_inbox (w_env w) ++ group_frames frames [])
                       (sock_partial (w_env w)) (w_env w))
          (self w).

(** A socket with nothing to read and no fault. *)
Definition quiet {C} (w : world C) : Prop :=
  sock_fault (w_env w) = None ∧ sock_partial (w_env w) = [] ∧ sock_inbox (w_env w) = [].

(** The clock of a world is set. *)
Definition at_time {C} (t : Qc) (w : world C) : world C :=
  let e := w_env w in
  mkWorld (mkEnv (heap e) (next_loc e) (chans e) (next_chan e) (sock_sent e)
                 (sock_inbox e) (sock_partial e) (sock_fault e) (log e) t (uuid_calls e))
          (self w).

(** The resilient client as its constructor leaves it. *)
Definition resilient_built : world Resilient.client :=
  (Resilient.__init__ sample_dumps sample_uuid1 "client-1" "tcp://127.0.0.1:8000" ∅
     (env_with put_anonymous)).2.

(** A resilient client object in the connected state with the envelope at
    address 1 pending since time 0 and one more queued behind it. *)
Definition resilient_connected : world Resilient.client :=
  mkWorld (set_next_loc 3%positive
             (set_heap (<[2%positive := put_r1]> {[1%positive := put_r1]}) env0))
    (Resilient.mkClient [Resilient.VMessage (mkMessage 2%positive BNone)]
       (Resilient.VMessage (mkMessage 1%positive BNone)) (Some (Q2Qc 0)) 0
       "client-1" "tcp://127.0.0.1:8000" ∅ Resilient._status_connected (Q2Qc 0)).

(** A resilient client object in the handshaking state, the handshake dict
    at address 1 pending, as [_send_handshake] assigns it. *)
Definition handshake_r1 : dict :=
  <["message-type" := "resilient-server-handshake"]> {["request-id" := "r1"]}.
Definition resilient_handshaking : world Resilient.client :=
  mkWorld (env_with handshake_r1)
    (Resilient.mkClient [Resilient.VMessage (mkMessage 1%positive BNone)]
       (Resilient.VDict 1%positive) (Some (Q2Qc 0)) 0
       "client-1" "tcp://127.0.0.1:8000" ∅ Resilient._status_handshaking (Q2Qc 0)).

(** A resilient client object with an empty pending slot. *)
Definition resilient_idle : world Resilient.client :=
  mkWorld (env_with put_r1)
    (Resilient.mkClient [] Resilient.VNone None 0
       "client-1" "tcp://127.0.0.1:8000" ∅ Resilient._status_connected (Q2Qc 0)).

(** The same client object when the caller's map at address 1 has no
    request-id. *)
Definition resilient_idle_anonymous : world Resilient.client :=
  mkWorld (env_with put_anonymous) (self resilient_idle).

(** * Proofs *)

Arguments uuid_hex : simpl never.

(** Symbolic execution: the monad's operations and the primitives are
    unfolded and the record projections computed. *)
Ltac unfold_M :=
  unfold mbind, mret, M_bind, M_ret, raise, get_env, mod_env, get_self, mod_self,
    try_except, try_finally, read_dict, getitem, setitem, log_msg, new_dict,
    new_Queue, Queue_put, time_time, uuid1_hex, sock_send, sock_send_json,
    sock_recv_json, sock_recv_noblock, recv_json_or_none, recv_body_frames.
Ltac exec := repeat (unfold_M; unfold deref; cbn).
Ltac returns := eexists; split; [reflexivity | cbn].

(** ** The request-id *)

Lemma hex_fixed_length width : ∀ v acc,
  String.length (hex_fixed width v acc) = (width + String.length acc)%nat.
Proof.
  induction width as [|width IH]; intros v acc; simpl; [done|].
  rewrite IH. simpl. lia.
Qed.

Lemma uuid_hex_length v : String.length (uuid_hex v) = 32%nat.
Proof. unfold uuid_hex. by rewrite hex_fixed_length. Qed.

Lemma hex_digit_is_hex d : is_hex_digit (hex_digit d).
Proof.
  unfold is_hex_digit, hex_digit.
  repeat case_match; cbv [list_ascii_of_string]; repeat constructor.
Qed.

Lemma hex_fixed_digits width : ∀ v acc,
  Forall is_hex_digit (list_ascii_of_string acc) →
  Forall is_hex_digit (list_ascii_of_string (hex_fixed width v acc)).
Proof.
  induction width as [|width IH]; intros v acc Hacc; simpl; [done|].
  apply IH. simpl. constructor; [apply hex_digit_is_hex | done].
Qed.

Lemma uuid_hex_digits v : Forall is_hex_digit (list_ascii_of_string (uuid_hex v)).
Proof. unfold uuid_hex. apply hex_fixed_digits. constructor. Qed.

(** ** The wire *)

Lemma transmitted_nil {C} (w w' : world C) :
  sock_sent (w_env w') = sock_sent (w_env w) → transmitted w w' = [].
Proof. intros H. unfold transmitted. rewrite H. apply drop_all. Qed.

(** ** The multiplexed client *)

Section XREQ_proofs.
Variable json_dumps : dict → string.
Variable json_loads : string → option dict.
Variable uuid1 : nat → N.

Lemma recv_while_rcvmore_spec (C : Type) unread : ∀ body (w : world C),
  recv_while_rcvmore unread body w =
  (Return (body ++ unread),
   match unread with
   | [] => w
   | _ => mkWorld (set_sock_in (sock_inbox (w_env w)) [] (w_env w)) (self w)
   end).
Proof.
  induction unread as [|f rest IH]; intros body w.
  - cbn. by rewrite app_nil_r.
  - cbn. exec. rewrite IH. rewrite <- app_assoc. cbn.
    by destruct rest.
Qed.

Lemma send_each_more_spec (C : Type) segments : ∀ w : world C,
  send_each_more segments w =
  (Return tt,
   mkWorld (set_sock_sent (sock_sent (w_env w) ++ map (λ s, (s, true)) segments) (w_env w))
           (self w)).
Proof.
  induction segments as [|s rest IH]; intros [e c].
  - cbn. rewrite app_nil_r. by destruct e.
  - cbn. exec. rewrite IH. cbn. by rewrite <- app_assoc.
Qed.

Lemma removelast_last {A} (l : list A) x :
  last l = Some x → l = removelast l ++ [x].
Proof.
  induction l as [|a [|b l] IH]; intros H; [done| |].
  - by injection H as ->.
  - change (last (a :: b :: l)) with (last (b :: l)) in H.
    change (removelast (a :: b :: l)) with (a :: removelast (b :: l)).
    cbn [app]. f_equal. by apply IH.
Qed.

Lemma last_is_Some {A} (l : list A) : l ≠ [] → is_Some (last l).
Proof.
  destruct l as [|a l] using rev_ind; [done|]. rewrite last_snoc. eauto.
Qed.

Lemma group_frames_one segments : ∀ cur last_segment first others,
  cur ++ segments ++ [last_segment] = first :: others →
  group_frames (map (λ s, (s, true)) segments ++ [(last_segment, false)]) cur
  = [(first, others)].
Proof.
  induction segments as [|s rest IH]; intros cur y first others H; cbn in *.
  - by rewrite H.
  - apply IH. by rewrite <- app_assoc.
Qed.

(** [_receive_message] on a waiting multipart message: the control map is
    a new dict, the trailing frames are unwrapped. *)
Lemma xreq_receive_spec (w : world XREQ.client) frame rest msgs ctl :
  sock_fault (w_env w) = None →
  sock_partial (w_env w) = [] →
  sock_inbox (w_env w) = (frame, rest) :: msgs →
  json_loads frame = Some ctl →
  ∃ w', XREQ._receive_message json_loads w
        = (Return (Some (mkMessage (next_loc (w_env w)) (XREQ.unwrap_body rest))), w')
    ∧ self w' = self w
    ∧ heap (w_env w') = <[next_loc (w_env w) := ctl]> (heap (w_env w))
    ∧ chans (w_env w') = chans (w_env w)
    ∧ log (w_env w') = log (w_env w)
    ∧ sock_sent (w_env w') = sock_sent (w_env w).
Proof.
  intros Hf Hp Hi Hj. unfold XREQ._receive_message.
  exec. rewrite Hf, Hp, Hi. exec. rewrite Hj. exec.
  rewrite recv_while_rcvmore_spec. cbn.
  returns. by destruct rest.
Qed.

(** [_send_message] of a framable body: the frames it sends are delivered
    as one multipart message, control frame first, then the segments. *)
Lemma xreq_send_spec (w : world XREQ.client) (m : Message) :
  framable (mbody m) →
  ∃ w' frames, XREQ._send_message json_dumps m w = (Return tt, w')
    ∧ sock_sent (w_env w') = sock_sent (w_env w) ++ frames
    ∧ group_frames frames []
      = [(json_dumps (deref (control m) (w_env w)), segments_of (mbody m))]
    ∧ ∀ s, mbody m = BBytes s →
        frames = [(json_dumps (deref (control m) (w_env w)), true); (s, false)].
Proof.
  intros Hne. unfold XREQ._send_message, send_frames, framable in *.
  destruct (mbody m) as [|s|l|l] eqn:Hb; exec.
  - do 2 eexists. split; [reflexivity|]. cbn.
    split; [reflexivity|]. split; [done|]. intros; discriminate.
  - do 2 eexists. split; [reflexivity|]. cbn. rewrite <- app_assoc.
    split; [reflexivity|]. split; [done|]. by intros ? [= <-].
  - destruct Hne as [Hne|]; [|done].
    rewrite send_each_more_spec. cbn.
    destruct (last_is_Some l Hne) as [x Hl]. rewrite Hl. exec.
    do 2 eexists. split; [reflexivity|]. cbn. rewrite <- !app_assoc.
    split; [reflexivity|]. split; [|intros; discriminate].
    cbn. apply group_frames_one. cbn. f_equal. symmetry. by apply removelast_last.
  - destruct Hne as [Hne|]; [|done].
    rewrite send_each_more_spec. cbn.
    destruct (last_is_Some l Hne) as [x Hl]. rewrite Hl. exec.
    do 2 eexists. split; [reflexivity|]. cbn. rewrite <- !app_assoc.
    split; [reflexivity|]. split; [|intros; discriminate].
    cbn. apply group_frames_one. cbn. f_equal. symmetry. by apply removelast_last.
Qed.

Lemma unwrap_segments (b : body) :
  framable b → XREQ.unwrap_body (segments_of b) = body_after_roundtrip b.
Proof. destruct b as [|s|[|s [|s' l]]|[|s [|s' l]]]; intros [?|?]; done. Qed.

(** A reply whose request-id is registered. *)
Lemma xreq_resolve_hit (w : world XREQ.client) frame rest ctl rid q :
  reply_waiting w frame rest →
  json_loads frame = Some ctl →
  ctl !! "request-id" = Some rid →
  XREQ._delivery_queues (self w) !! rid = Some q →
  ∃ w', XREQ._pollster_callback json_dumps json_loads true false w = (Return tt, w')
    ∧ XREQ._delivery_queues (self w') = delete rid (XREQ._delivery_queues (self w))
    ∧ chans (w_env w')
      = <[q := default [] (chans (w_env w) !! q)
                 ++ [(next_loc (w_env w), XREQ.unwrap_body rest)]]> (chans (w_env w))
    ∧ deref (next_loc (w_env w)) (w_env w') = ctl
    ∧ log (w_env w') = log (w_env w).
Proof.
  intros (Hf & Hp & msgs & Hi) Hj Hrid Hq.
  destruct (xreq_receive_spec w frame rest msgs ctl Hf Hp Hi Hj)
    as (w1 & Hrecv & Hself & Hheap & Hchans & Hlog & _).
  unfold XREQ._pollster_callback. exec. rewrite Hrecv. exec.
  rewrite Hheap, lookup_insert_eq. cbn. rewrite Hrid, Hself, Hq. exec.
  returns. rewrite Hself, Hchans, Hheap, Hlog, lookup_insert_eq. done.
Qed.

(** A reply whose request-id is not registered. *)
Lemma xreq_resolve_miss (w : world XREQ.client) frame rest ctl rid :
  reply_waiting w frame rest →
  json_loads frame = Some ctl →
  ctl !! "request-id" = Some rid →
  XREQ._delivery_queues (self w) !! rid = None →
  ∃ w', XREQ._pollster_callback json_dumps json_loads true false w = (Return tt, w')
    ∧ XREQ._delivery_queues (self w') = XREQ._delivery_queues (self w)
    ∧ chans (w_env w') = chans (w_env w)
    ∧ log (w_env w') = log (w_env w) ++ [(ERROR, "No delivery queue for %s")].
Proof.
  intros (Hf & Hp & msgs & Hi) Hj Hrid Hq.
  destruct (xreq_receive_spec w frame rest msgs ctl Hf Hp Hi Hj)
    as (w1 & Hrecv & Hself & Hheap & Hchans & Hlog & _).
  unfold XREQ._pollster_callback. exec. rewrite Hrecv. exec.
  rewrite Hheap, lookup_insert_eq. cbn. rewrite Hrid, Hself, Hq. exec.
  returns. rewrite Hself, Hchans, Hlog. done.
Qed.

(** [queue_message_for_send] always returns the channel it has just made,
    registered under the request-id the control map now carries. *)
Lemma xreq_queue_spec (w : world XREQ.client) l data :
  ∃ rid w', XREQ.queue_message_for_send uuid1 l data w
            = (Return (next_chan (w_env w)), w')
    ∧ heap (w_env w') = heap_after_queue uuid1 l (w_env w)
    ∧ deref l (w_env w') !! "request-id" = Some rid
    ∧ XREQ._delivery_queues (self w')
      = <[rid := next_chan (w_env w)]> (XREQ._delivery_queues (self w))
    ∧ XREQ._send_queue (self w') = XREQ._send_queue (self w) ++ [mkMessage l data]
    ∧ chans (w_env w') = <[next_chan (w_env w) := []]> (chans (w_env w))
    ∧ sock_sent (w_env w') = sock_sent (w_env w).
Proof.
  unfold XREQ.queue_message_for_send, heap_after_queue.
  exec.
  destruct (default ∅ _ !! "request-id") as [rid|] eqn:Hrid.
  - destruct (decide _) as [_|H]; [|exfalso; apply H; eauto].
    repeat (exec; rewrite ?Hrid, ?lookup_insert_eq).
    do 2 eexists. split; [reflexivity|]. cbn. by rewrite Hrid.
  - destruct (decide _) as [[? H]|_]; [discriminate|].
    repeat (exec; rewrite ?Hrid, ?lookup_insert_eq).
    do 2 eexists. split; [reflexivity|]. cbn.
    rewrite !lookup_insert_eq. cbn. by rewrite lookup_insert_eq.
Qed.

End XREQ_proofs.

Section XREQ_claims.
Variable json_dumps : dict → string.
Variable json_loads : string → option dict.
Variable uuid1 : nat → N.

(** C4.  A reply whose request-id is registered removes the entry and puts
    [(control, body)] into the registered channel, once; after that the id
    is no longer registered, and a reply for an id that is not registered
    (resolved before, or never registered) returns normally, logs the miss,
    and leaves every channel and the registry as they were. *)
Theorem delivery_resolved_exactly_once (w : world XREQ.client) frame rest ctl rid q :
  reply_waiting w frame rest →
  json_loads frame = Some ctl →
  ctl !! "request-id" = Some rid →
  XREQ._delivery_queues (self w) !! rid = Some q →
  ∃ w1, XREQ._pollster_callback json_dumps json_loads true false w = (Return tt, w1)
    ∧ XREQ._delivery_queues (self w1) = delete rid (XREQ._delivery_queues (self w))
    ∧ XREQ._delivery_queues (self w1) !! rid = None
    ∧ chans (w_env w1)
      = <[q := default [] (chans (w_env w) !! q)
                 ++ [(next_loc (w_env w), XREQ.unwrap_body rest)]]> (chans (w_env w))
    ∧ deref (next_loc (w_env w)) (w_env w1) = ctl
    ∧ ∀ (w2 : world XREQ.client) frame2 rest2 ctl2 rid2,
        XREQ._delivery_queues (self w2) !! rid2 = None →
        reply_waiting w2 frame2 rest2 →
        json_loads frame2 = Some ctl2 →
        ctl2 !! "request-id" = Some rid2 →
        ∃ w3, XREQ._pollster_callback json_dumps json_loads true false w2 = (Return tt, w3)
          ∧ XREQ._delivery_queues (self w3) = XREQ._delivery_queues (self w2)
          ∧ chans (w_env w3) = chans (w_env w2)
          ∧ log (w_env w3) = log (w_env w2) ++ [(ERROR, "No delivery queue for %s")].
Proof.
  intros Hwait Hj Hrid Hq.
  destruct (xreq_resolve_hit json_dumps json_loads w frame rest ctl rid q)
    as (w1 & Hrun & Hdq & Hch & Hctl & _); try done.
  exists w1. split; [done|]. split; [done|].
  split; [rewrite Hdq; apply lookup_delete_eq|].
  split; [done|]. split; [done|].
  intros w2 frame2 rest2 ctl2 rid2 Hnone Hwait2 Hj2 Hrid2.
  by eapply xreq_resolve_miss.
Qed.

(** C5.  [_send_message] of a message whose body is a single object sends
    the control frame followed by that one frame; [_receive_message] gives
    [None] for no trailing frame, the bare segment for one, the list for
    more; and what is decoded from the frames of an encoded message is the
    control map and [None] for no body, the bare segment for a single
    object or a sequence of one, the same segments for a longer sequence. *)
Theorem codec_asymmetry (ws wr : world XREQ.client) (m : Message) :
  framable (mbody m) →
  json_loads (json_dumps (deref (control m) (w_env ws)))
    = Some (deref (control m) (w_env ws)) →
  quiet wr →
  (∃ ws' frames,
      XREQ._send_message json_dumps m ws = (Return tt, ws')
      ∧ sock_sent (w_env ws') = sock_sent (w_env ws) ++ frames
      ∧ (∀ s, mbody m = BBytes s →
           frames = [(json_dumps (deref (control m) (w_env ws)), true); (s, false)])
      ∧ ∃ wr', XREQ._receive_message json_loads (deliver frames wr)
               = (Return (Some (mkMessage (next_loc (w_env wr))
                                          (body_after_roundtrip (mbody m)))), wr')
          ∧ deref (next_loc (w_env wr)) (w_env wr') = deref (control m) (w_env ws))
  ∧ ∀ frame rest ctl,
      json_loads frame = Some ctl →
      ∃ wr', XREQ._receive_message json_loads (arrive (frame, rest) wr)
             = (Return (Some (mkMessage (next_loc (w_env wr))
                                (match rest with
                                 | [] => BNone
                                 | [segment] => BBytes segment
                                 | _ => BList rest
                                 end))), wr')
        ∧ deref (next_loc (w_env wr)) (w_env wr') = ctl.
Proof.
  intros Hfr Hj (Hf & Hp & Hi). split.
  - destruct (xreq_send_spec json_dumps ws m Hfr) as (ws' & frames & Hsend & Hsent & Hgroup & Hscalar).
    exists ws', frames. do 3 (split; [done|]).
    destruct (xreq_receive_spec json_loads (deliver frames wr)
                (json_dumps (deref (control m) (w_env ws))) (segments_of (mbody m)) []
                (deref (control m) (w_env ws)))
      as (wr' & Hrecv & _ & Hheap & _); try done.
    { cbn. by rewrite Hi, Hgroup. }
    exists wr'. rewrite <- unwrap_segments by done. split; [exact Hrecv|].
    unfold deref. cbn in Hheap. by rewrite Hheap, lookup_insert_eq.
  - intros frame rest ctl Hctl.
    destruct (xreq_receive_spec json_loads (arrive (frame, rest) wr) frame rest [] ctl)
      as (wr' & Hrecv & _ & Hheap & _); try done.
    { cbn. by rewrite Hi. }
    exists wr'. split; [exact Hrecv|].
    unfold deref. cbn in Hheap. by rewrite Hheap, lookup_insert_eq.
Qed.

(** C6, as amended.  Registering a request-id that is already registered
    does not fail: the call returns a new, empty channel and the entry now
    holds it; the channel registered before is left as it was. *)
Theorem duplicate_registration_replaces (w : world XREQ.client) l data rid q :
  deref l (w_env w) !! "request-id" = Some rid →
  XREQ._delivery_queues (self w) !! rid = Some q →
  q ≠ next_chan (w_env w) →
  ∃ w', XREQ.queue_message_for_send uuid1 l data w = (Return (next_chan (w_env w)), w')
    ∧ XREQ._delivery_queues (self w') !! rid = Some (next_chan (w_env w))
    ∧ chans (w_env w') !! next_chan (w_env w) = Some []
    ∧ chans (w_env w') !! q = chans (w_env w) !! q.
Proof.
  intros Hrid Hq Hfresh.
  destruct (xreq_queue_spec uuid1 w l data)
    as (rid' & w' & Hrun & Hheap & Hrid' & Hdq & _ & Hch & _).
  unfold heap_after_queue in Hheap. rewrite Hrid in Hheap.
  unfold deref in *. rewrite Hheap, Hrid in Hrid'. injection Hrid' as <-.
  exists w'. split; [done|]. rewrite Hdq, Hch.
  rewrite !lookup_insert_eq, lookup_insert_ne by done. done.
Qed.

End XREQ_claims.

(** ** The resilient client *)

Section Resilient_proofs.
Import Resilient ResilientSpec.
Variable json_dumps : dict → string.
Variable json_loads : string → option dict.
Variable uuid1 : nat → N.

(** The deque has no [lock] and no [put]. *)
Lemma lock_acquire_raises (w : world client) :
  send_queue_lock_acquire w = (Raise AttributeError, w).
Proof. reflexivity. Qed.

Lemma lock_release_raises (w : world client) :
  send_queue_lock_release w = (Raise AttributeError, w).
Proof. reflexivity. Qed.

Lemma send_queue_put_raises v (w : world client) :
  send_queue_put v w = (Raise AttributeError, w).
Proof. reflexivity. Qed.

Lemma same_state_machine_refl w : same_state_machine w w.
Proof. by repeat split. Qed.

Lemma send_handshake_raises (w : world client) :
  ∃ w', _send_handshake json_dumps uuid1 w = (Raise AttributeError, w')
    ∧ self w' = self w ∧ sock_sent (w_env w') = sock_sent (w_env w).
Proof.
  unfold _send_handshake. exec. rewrite lock_acquire_raises. by returns.
Qed.

Lemma construct_raises tag address deliverator e :
  ∃ w', __init__ json_dumps uuid1 tag address deliverator e = (Raise AttributeError, w')
    ∧ _send_queue (self w') = []
    ∧ _pending_message (self w') = VNone
    ∧ _status (self w') = _status_disconnected
    ∧ sock_sent (w_env w') = sock_sent e.
Proof.
  unfold __init__.
  destruct (send_handshake_raises
              (mkWorld (set_log (log e ++ [(DEBUG, "connecting")]) e)
                 (mkClient [] VNone None 0 tag address deliverator
                    _status_disconnected (now (set_log (log e ++ [(DEBUG, "connecting")]) e)))))
    as (w' & Hrun & Hself & Hsent).
  exists w'. rewrite Hself, Hsent. done.
Qed.

Lemma queue_raises (w : world client) l data :
  ∃ e w', queue_message_for_send json_dumps uuid1 l data w = (Raise e, w')
    ∧ (e = AttributeError ∨ e = DuplicateRequestId)
    ∧ same_state_machine w w'
    ∧ heap (w_env w') = heap_after_queue uuid1 l (w_env w).
Proof.
  unfold queue_message_for_send, heap_after_queue, add_request, same_state_machine.
  exec.
  destruct (default ∅ _ !! "request-id") as [rid|] eqn:Hrid.
  - destruct (decide _) as [_|H]; [|exfalso; apply H; eauto].
    repeat (exec; rewrite ?Hrid, ?lookup_insert_eq).
    destruct (_deliverator (self w) !! rid); exec.
    + do 2 eexists. split; [reflexivity|]. cbn. auto 10.
    + rewrite lock_acquire_raises. do 2 eexists. split; [reflexivity|]. cbn. auto 10.
  - destruct (decide _) as [[? H]|_]; [discriminate|].
    repeat (exec; rewrite ?Hrid, ?lookup_insert_eq).
    destruct (_deliverator (self w) !! _); exec.
    + do 2 eexists. split; [reflexivity|]. cbn. auto 10.
    + rewrite lock_acquire_raises. do 2 eexists. split; [reflexivity|]. cbn. auto 10.
Qed.

(** The callback leaves the client object and the wire as they were: it
    returns at a socket that would have blocked, and with a message read it
    stops at the lock. *)
Lemma callback_keeps readable writable (w : world client) :
  ∃ o w', _pollster_callback json_dumps json_loads readable writable w = (o, w')
    ∧ self w' = self w
    ∧ sock_sent (w_env w') = sock_sent (w_env w).
Proof.
  unfold _pollster_callback, _receive_message. exec.
  destruct (sock_fault (w_env w)) as [errno|]; exec.
  { destruct (decide (errno = EAGAIN)); exec; do 2 eexists; (split; [reflexivity|done]). }
  destruct (sock_partial (w_env w)) as [|f rest]; [destruct (sock_inbox (w_env w)) as [|[f rest] msgs]|];
    exec; try (do 2 eexists; (split; [reflexivity|done])).
  all: destruct (json_loads f); exec; rewrite ?lock_acquire_raises;
    do 2 eexists; (split; [reflexivity|done]).
Qed.

Lemma run_keeps halt (w : world client) :
  ∃ o w', run json_dumps uuid1 halt w = (o, w')
    ∧ self w' = self w
    ∧ sock_sent (w_env w') = sock_sent (w_env w).
Proof.
  unfold run. destruct halt; exec; [do 2 eexists; (split; [reflexivity|done])|].
  destruct (decide (_status (self w) = _status_connected)); exec.
  { rewrite lock_acquire_raises. do 2 eexists; (split; [reflexivity|done]). }
  destruct (decide (_status (self w) = _status_disconnected)); exec.
  { unfold elapsed_since. exec.
    destruct (decide _); exec; [|do 2 eexists; (split; [reflexivity|done])].
    destruct (send_handshake_raises w) as (w' & -> & Hself & Hsent).
    do 2 eexists; (split; [reflexivity|done]). }
  destruct (decide (_status (self w) = _status_handshaking)); exec.
  { rewrite lock_acquire_raises. do 2 eexists; (split; [reflexivity|done]). }
  do 2 eexists; (split; [reflexivity|done]).
Qed.

(** No entry point changes the queue, the pending slot or the status, and
    none gives a frame to the socket; the constructor leaves the object
    disconnected with an empty slot. *)
Lemma exec_keeps (o : op) (w : world client) :
  match o with
  | Construct _ _ _ =>
      _send_queue (self (exec json_dumps json_loads uuid1 o w).2) = []
      ∧ _pending_message (self (exec json_dumps json_loads uuid1 o w).2) = VNone
      ∧ _status (self (exec json_dumps json_loads uuid1 o w).2) = _status_disconnected
      ∧ sock_sent (w_env (exec json_dumps json_loads uuid1 o w).2) = sock_sent (w_env w)
  | _ => same_state_machine w (exec json_dumps json_loads uuid1 o w).2
  end.
Proof.
  destruct o as [tag address deliverator|l data|readable writable|halt]; cbn.
  - destruct (construct_raises tag address deliverator (w_env w)) as (w' & -> & H). exact H.
  - destruct (queue_raises w l data) as (e & w' & -> & _ & H & _). exact H.
  - destruct (callback_keeps readable writable w) as (o & w' & -> & Hself & Hsent).
    unfold same_state_machine. cbn. by rewrite Hself, Hsent.
  - destruct (run_keeps halt w) as (o & w' & -> & Hself & Hsent).
    unfold same_state_machine. cbn. by rewrite Hself, Hsent.
Qed.

End Resilient_proofs.

(** *** What the blocks under the lock do on their own *)

Section Resilient_blocks.
Import Resilient ResilientSpec.
Variable json_dumps : dict → string.

(** The connected branch of [run], once inside the lock, does requeue a
    timed-out envelope at the head of the queue. *)
Lemma run_connected_locked_requeues (w : world client) t0 :
  _pending_message (self w) ≠ VNone →
  _pending_message_start_time (self w) = Some t0 →
  (_ack_timeout < now (w_env w) - t0)%Qc →
  ∃ w', run_connected_locked w = (Return tt, w')
    ∧ _status (self w') = _status_disconnected
    ∧ _pending_message (self w') = VNone
    ∧ _send_queue (self w') = _pending_message (self w) :: _send_queue (self w).
Proof.
  intros Hp Ht Hlate. unfold run_connected_locked, elapsed_since. exec.
  destruct (decide (_pending_message (self w) ≠ VNone)); [|done].
  rewrite Ht. exec. destruct (decide _); [|done]. exec. by returns.
Qed.

(** With an empty pending slot the callback's block fails on the log line:
    the received dict has no [control]. *)
Lemma callback_locked_unexpected_raises (w : world client) message :
  _pending_message (self w) = VNone →
  callback_locked json_dumps message w = (Raise AttributeError, w).
Proof.
  intros Hp. unfold callback_locked. exec. rewrite Hp.
  by destruct (decide (VNone = VNone)).
Qed.

(** With the handshake dict pending the callback's block fails on
    [self._pending_message.control]: [_send_handshake] stored the dict, not
    a [Message]. *)
Lemma callback_locked_handshake_raises (w : world client) message hs :
  _pending_message (self w) = VDict hs →
  callback_locked json_dumps message w = (Raise AttributeError, w).
Proof.
  intros Hp. unfold callback_locked. exec. rewrite Hp.
  by destruct (decide (VDict hs = VNone)).
Qed.

(** With a [Message] pending and its ack received, the callback's block
    transmits the head of the queue and then stores the ack, not the
    envelope it transmitted, as the pending message. *)
Lemma callback_locked_stores_ack (w : world client) message pm next rest rid mt :
  _pending_message (self w) = VMessage pm →
  deref (control pm) (w_env w) !! "request-id" = Some rid →
  deref message (w_env w) !! "request-id" = Some rid →
  deref (control pm) (w_env w) !! "message-type" = Some mt →
  mt ≠ "resilient-server-handshake" →
  _send_queue (self w) = VMessage next :: rest →
  framable (mbody next) →
  ∃ w', callback_locked json_dumps message w = (Return tt, w')
    ∧ _pending_message (self w') = VDict message
    ∧ _send_queue (self w') = rest
    ∧ transmitted w w' ≠ [].
Proof.
  intros Hp Hrid Hack Hmt Hne Hq Hfr. unfold deref in Hrid, Hack, Hmt.
  unfold callback_locked, subscript. exec.
  rewrite Hp. destruct (decide (VMessage pm = VNone)); [done|]. exec.
  rewrite Hrid. exec. rewrite Hack. exec.
  destruct (decide (rid ≠ rid)); [done|]. exec. rewrite Hmt. exec.
  destruct (decide (mt = _)); [done|]. exec. rewrite Hq. exec.
  unfold _send_message. exec. unfold send_frames, framable, transmitted in *.
  destruct (mbody next) as [|s|l|l]; exec.
  - returns. rewrite drop_app_length. done.
  - returns. rewrite <- app_assoc, drop_app_length. done.
  - destruct Hfr as [Hfr|]; [|done]. rewrite send_each_more_spec. cbn.
    destruct (last_is_Some l Hfr) as [x ->]. exec. returns.
    rewrite <- !app_assoc, drop_app_length. done.
  - destruct Hfr as [Hfr|]; [|done]. rewrite send_each_more_spec. cbn.
    destruct (last_is_Some l Hfr) as [x ->]. exec. returns.
    rewrite <- !app_assoc, drop_app_length. done.
Qed.

(** [_send_message] touches neither the pending slot nor the status. *)
Lemma send_message_pending (w : world client) v :
  _pending_message (self (_send_message json_dumps v w).2) = _pending_message (self w)
  ∧ _status (self (_send_message json_dumps v w).2) = _status (self w).
Proof.
  unfold _send_message, getattr_control, getattr_body, send_frames.
  destruct v as [|[c b]|d]; exec; try done.
  destruct b as [|s|l|l]; exec; try done;
    rewrite send_each_more_spec; cbn; destruct (last l); done.
Qed.

Ltac after_send_message :=
  match goal with
  | H : _send_message _ ?v ?w0 = (_, ?w) |- _ =>
      destruct (send_message_pending w0 v) as [Hpend Hst];
      rewrite H in Hpend, Hst; cbn in Hpend, Hst; rewrite ?Hpend, ?Hst
  end.

(** Each block under the lock, run on its own, keeps the pending slot
    occupied only while handshaking or connected, however it ends. *)
Lemma callback_locked_invariant (w : world client) message :
  pending_slot_invariant w →
  pending_slot_invariant (callback_locked json_dumps message w).2.
Proof.
  unfold pending_slot_invariant, callback_locked, getattr_control, subscript.
  intros Hinv. exec.
  destruct (_pending_message (self w)) as [|pm|d] eqn:Hp; exec; try done.
  all: repeat (case_match; simplify_eq; exec; try done).
  all: rewrite ?Hp; try done; try (by intros _; right).
  all: after_send_message; try done; try (by intros _; right);
    try (by intros _; apply Hinv).
Qed.

Lemma run_connected_locked_invariant (w : world client) :
  pending_slot_invariant w →
  pending_slot_invariant (run_connected_locked w).2.
Proof.
  unfold pending_slot_invariant, run_connected_locked, elapsed_since.
  intros Hinv. exec.
  repeat (case_match; simplify_eq; exec; try done).
Qed.

Lemma run_handshaking_locked_invariant (w : world client) :
  pending_slot_invariant w →
  pending_slot_invariant (run_handshaking_locked w).2.
Proof.
  unfold pending_slot_invariant, run_handshaking_locked, elapsed_since.
  intros Hinv. exec.
  repeat (case_match; simplify_eq; exec; try done).
Qed.

Lemma queue_locked_invariant (w : world client) message :
  pending_slot_invariant w →
  pending_slot_invariant (queue_locked json_dumps message w).2.
Proof.
  unfold pending_slot_invariant, queue_locked.
  intros Hinv. exec.
  repeat (case_match; simplify_eq; exec; try done).
  all: after_send_message; try done.
  all: intros _; right;
    match goal with H : _ ∧ _ |- _ => by destruct H end.
Qed.

(** The callback's block gives frames to the socket only with the status
    connected, provided a pending [Message] implies the connected status
    (the only assignment of a [Message] to the slot is in the block of
    [queue_message_for_send], under that status). *)
Lemma callback_locked_gating (w : world client) message :
  (∀ pm, _pending_message (self w) = VMessage pm → _status (self w) = _status_connected) →
  transmitted w (callback_locked json_dumps message w).2 = []
  ∨ _status (self (callback_locked json_dumps message w).2) = _status_connected.
Proof.
  unfold callback_locked, getattr_control, subscript.
  intros Hconn. exec.
  destruct (_pending_message (self w)) as [|pm|d] eqn:Hp; exec;
    try (by left; apply transmitted_nil).
  specialize (Hconn pm eq_refl).
  repeat (case_match; simplify_eq; exec; try (by left; apply transmitted_nil)).
  all: right; after_send_message; done.
Qed.

(** The block of [queue_message_for_send] gives frames to the socket only
    from the connected status with an empty pending slot. *)
Lemma queue_locked_gating (w : world client) message :
  transmitted w (queue_locked json_dumps message w).2 = []
  ∨ (_status (self w) = _status_connected ∧ _pending_message (self w) = VNone).
Proof.
  unfold queue_locked. exec.
  destruct (decide _) as [H|H]; [by right|]. left.
  cbn. unfold transmitted. apply drop_all.
Qed.

End Resilient_blocks.

(** *** The claims about the resilient client *)

Section Resilient_claims.
Import Resilient ResilientSpec.
Variable json_dumps : dict → string.
Variable json_loads : string → option dict.
Variable uuid1 : nat → N.

(** C1, the code on any envelope handed to [queue_message_for_send]: the
    call raises before the envelope is either transmitted or appended to the
    send queue, so the envelope is never sent at all. *)
Theorem queued_envelope_is_lost (w : world client) l data :
  ∃ e w', queue_message_for_send json_dumps uuid1 l data w = (Raise e, w')
    ∧ (e = AttributeError ∨ e = DuplicateRequestId)
    ∧ _send_queue (self w') = _send_queue (self w)
    ∧ _pending_message (self w') = _pending_message (self w)
    ∧ transmitted w w' = [].
Proof.
  destruct (queue_raises json_dumps uuid1 w l data)
    as (e & w' & Hrun & He & (Hq & Hp & _ & _ & _ & Hsent) & _).
  exists e, w'. repeat (split; [done|]). by apply transmitted_nil.
Qed.

(** C2, the code at a connected client whose pending envelope is older than
    the ack timeout: [run] raises at the lock and leaves the client as it
    was, still connected with the envelope pending. *)
Theorem run_ack_timeout_raises (w : world client) t0 :
  _status (self w) = _status_connected →
  _pending_message (self w) ≠ VNone →
  _pending_message_start_time (self w) = Some t0 →
  (_ack_timeout < now (w_env w) - t0)%Qc →
  run json_dumps uuid1 false w = (Raise AttributeError, w).
Proof.
  intros Hs _ _ _. unfold run. exec.
  destruct (decide (_status (self w) = _status_connected)); [|done].
  exec. by rewrite lock_acquire_raises.
Qed.

(** C3, the code at a handshaking client that receives the ack of its
    handshake: the callback raises at the lock; the client stays
    handshaking with the handshake pending, and nothing is transmitted. *)
Theorem handshake_ack_raises (w : world client) frame rest ctl hs rid :
  _status (self w) = _status_handshaking →
  _pending_message (self w) = VDict hs →
  deref hs (w_env w) !! "request-id" = Some rid →
  deref hs (w_env w) !! "message-type" = Some "resilient-server-handshake" →
  reply_waiting w frame rest →
  json_loads frame = Some ctl →
  ctl !! "request-id" = Some rid →
  ∃ w', _pollster_callback json_dumps json_loads true false w = (Raise AttributeError, w')
    ∧ _status (self w') = _status_handshaking
    ∧ _pending_message (self w') = VDict hs
    ∧ _send_queue (self w') = _send_queue (self w)
    ∧ transmitted w w' = [].
Proof.
  intros Hs Hp _ _ (Hf & Hpart & msgs & Hi) Hj _.
  unfold _pollster_callback, _receive_message. exec.
  rewrite Hf, Hpart, Hi. exec. rewrite Hj. exec. rewrite lock_acquire_raises.
  returns. rewrite Hs, Hp. repeat (split; [done|]). by apply transmitted_nil.
Qed.

(** C7, the code at a client with an empty pending slot that receives a
    message: the callback raises [AttributeError] to its caller; the queue,
    the slot and the status are unchanged. *)
Theorem unexpected_reply_raises (w : world client) frame rest ctl :
  _pending_message (self w) = VNone →
  reply_waiting w frame rest →
  json_loads frame = Some ctl →
  ∃ w', _pollster_callback json_dumps json_loads true false w = (Raise AttributeError, w')
    ∧ self w' = self w.
Proof.
  intros _ (Hf & Hpart & msgs & Hi) Hj.
  unfold _pollster_callback, _receive_message. exec.
  rewrite Hf, Hpart, Hi. exec. rewrite Hj. exec. rewrite lock_acquire_raises.
  by returns.
Qed.

(** The would-block branch of the callback does return, with a warning. *)
Lemma callback_would_block (w : world client) :
  quiet w →
  ∃ w', _pollster_callback json_dumps json_loads true false w = (Return tt, w')
    ∧ self w' = self w
    ∧ log (w_env w') = log (w_env w) ++ [(WARN, "socket would have blocked")].
Proof.
  intros (Hf & Hp & Hi). unfold _pollster_callback, _receive_message. exec.
  rewrite Hf, Hp, Hi. exec. by returns.
Qed.

(** C8.  Whatever entry point runs from whatever state, every multipart
    message it puts on the wire is the handshake or is sent with the status
    connected; and [queue_message_for_send] transmits only from the
    connected status with an empty pending slot. *)
Theorem handshake_gating (o : op) (w : world client) :
  Forall (λ msg, is_handshake json_dumps msg
                 ∨ _status (self (exec json_dumps json_loads uuid1 o w).2)
                   = _status_connected)
         (group_frames (transmitted w (exec json_dumps json_loads uuid1 o w).2) [])
  ∧ match o with
    | QueueMessageForSend _ _ =>
        transmitted w (exec json_dumps json_loads uuid1 o w).2 = []
        ∨ (_status (self w) = _status_connected ∧ _pending_message (self w) = VNone)
    | _ => True
    end.
Proof.
  assert (transmitted w (exec json_dumps json_loads uuid1 o w).2 = []) as ->.
  { apply transmitted_nil.
    pose proof (exec_keeps json_dumps json_loads uuid1 o w) as H.
    destruct o; [by destruct H as (_ & _ & _ & ->) | | |];
      by destruct H as (_ & _ & _ & _ & _ & ->). }
  split; [constructor|]. destruct o; auto.
Qed.

(** C9.  Every entry point, the constructor included, preserves that the
    pending slot (a single attribute, so at most one envelope) is occupied
    only while the status is handshaking or connected; so whenever the
    status is disconnected the slot is empty. *)
Theorem pending_slot_invariant_preserved (o : op) (w : world client) :
  pending_slot_invariant w →
  pending_slot_invariant (exec json_dumps json_loads uuid1 o w).2
  ∧ (_status (self (exec json_dumps json_loads uuid1 o w).2) = _status_disconnected →
     _pending_message (self (exec json_dumps json_loads uuid1 o w).2) = VNone).
Proof.
  intros Hinv. pose proof (exec_keeps json_dumps json_loads uuid1 o w) as H.
  assert (pending_slot_invariant (exec json_dumps json_loads uuid1 o w).2) as Hinv'.
  { unfold pending_slot_invariant in *.
    destruct o; [by destruct H as (_ & -> & _) | | |];
      destruct H as (_ & -> & _ & -> & _); exact Hinv. }
  split; [exact Hinv'|]. intros Hd.
  destruct (decide (_pending_message (self (exec json_dumps json_loads uuid1 o w).2) = VNone))
    as [|Hfull]; [done|].
  destruct (Hinv' Hfull) as [Hs|Hs]; rewrite Hd in Hs; discriminate.
Qed.

(** C10, the code at the resilient client and a control map without
    "request-id": [queue_message_for_send] draws one UUID and writes its 32
    hexadecimal digits into the caller's own map, as the claim says, but the
    call does not return: it raises [AttributeError] at the lock, with the id
    written and registered and the envelope neither sent nor queued. *)
Theorem resilient_queue_writes_id_then_raises (w : world client) l data :
  deref l (w_env w) !! "request-id" = None →
  _deliverator (self w) !! uuid_hex (uuid1 (uuid_calls (w_env w))) = None →
  ∃ w', queue_message_for_send json_dumps uuid1 l data w = (Raise AttributeError, w')
    ∧ uuid_calls (w_env w') = S (uuid_calls (w_env w))
    ∧ deref l (w_env w')
      = <["request-id" := uuid_hex (uuid1 (uuid_calls (w_env w)))]> (deref l (w_env w))
    ∧ String.length (uuid_hex (uuid1 (uuid_calls (w_env w)))) = 32%nat
    ∧ is_Some (_deliverator (self w') !! uuid_hex (uuid1 (uuid_calls (w_env w))))
    ∧ _send_queue (self w') = _send_queue (self w)
    ∧ transmitted w w' = [].
Proof.
  intros Hrid Hfree. unfold deref in Hrid.
  unfold queue_message_for_send, add_request. exec. rewrite Hrid.
  destruct (decide (is_Some None)) as [[? ?]|_]; [discriminate|].
  repeat (exec; rewrite ?lookup_insert_eq). rewrite Hfree. exec.
  rewrite lock_acquire_raises. returns. rewrite !lookup_insert_eq. cbn.
  split; [done|]. split; [done|]. split; [apply uuid_hex_length|].
  split; [eauto|]. split; [done|]. by apply transmitted_nil.
Qed.

End Resilient_claims.

(** * The claims at sample inputs *)

(** The request "r1" is registered with channel 1 and its reply, with one
    body frame, waits on the socket. *)
Lemma delivery_resolved_exactly_once_witness :
  XREQ._delivery_queues (self (arrive ("request-id=r1;", ["done"]) xreq_r1)) !! "r1"
    = Some 1%positive
  ∧ ∃ w1, XREQ._pollster_callback sample_dumps sample_loads true false
            (arrive ("request-id=r1;", ["done"]) xreq_r1) = (Return tt, w1)
      ∧ XREQ._delivery_queues (self w1) !! "r1" = None
      ∧ chans (w_env w1) !! 1%positive = Some [(2%positive, BBytes "done")].
Proof.
  split; [vm_compute; reflexivity|].
  destruct (delivery_resolved_exactly_once sample_dumps sample_loads
              (arrive ("request-id=r1;", ["done"]) xreq_r1)
              "request-id=r1;" ["done"] {["request-id" := "r1"]} "r1" 1%positive)
    as (w1 & Hrun & _ & Hnone & Hch & _).
  - repeat split; try reflexivity. eexists. vm_compute. reflexivity.
  - vm_compute. reflexivity.
  - vm_compute. reflexivity.
  - vm_compute. reflexivity.
  - exists w1. split; [exact Hrun|]. split; [exact Hnone|].
    etransitivity; [exact (f_equal (.!! 1%positive) Hch)|]. vm_compute. reflexivity.
Defined.

(** A two-segment body travels from one multiplexed client to another. *)
Lemma codec_asymmetry_witness :
  framable (BList ["ab"; "cd"])
  ∧ ∃ ws' frames wr',
      XREQ._send_message sample_dumps (mkMessage 1%positive (BList ["ab"; "cd"])) xreq_fresh
        = (Return tt, ws')
      ∧ XREQ._receive_message sample_loads (deliver frames (XREQ.__init__ env0))
        = (Return (Some (mkMessage 1%positive (BList ["ab"; "cd"]))), wr')
      ∧ deref 1%positive (w_env wr') = put_r1.
Proof.
  split; [left; discriminate|].
  destruct (codec_asymmetry sample_dumps sample_loads xreq_fresh (XREQ.__init__ env0)
              (mkMessage 1%positive (BList ["ab"; "cd"])))
    as [(ws' & frames & Hsend & _ & _ & wr' & Hrecv & Hctl) _].
  - left. discriminate.
  - vm_compute. reflexivity.
  - repeat split; reflexivity.
  - exists ws', frames, wr'. split; [exact Hsend|]. split; [exact Hrecv|].
    etransitivity; [exact Hctl|]. vm_compute. reflexivity.
Defined.

(** C6, a counterexample: "r1" is registered with channel 1; registering
    it again returns normally with channel 2, which replaces channel 1 in
    the registry. *)
Lemma duplicate_registration_not_rejected :
  XREQ._delivery_queues (self xreq_r1) !! "r1" = Some 1%positive
  ∧ (XREQ.queue_message_for_send sample_uuid1 1%positive (BBytes "xyz") xreq_r1).1
    = Return 2%positive
  ∧ XREQ._delivery_queues
      (self (XREQ.queue_message_for_send sample_uuid1 1%positive (BBytes "xyz") xreq_r1).2)
    !! "r1" = Some 2%positive.
Proof. repeat split; vm_compute; reflexivity. Qed.

Lemma duplicate_registration_replaces_witness :
  deref 1%positive (w_env xreq_r1) !! "request-id" = Some "r1"
  ∧ XREQ._delivery_queues (self xreq_r1) !! "r1" = Some 1%positive
  ∧ ∃ w', XREQ.queue_message_for_send sample_uuid1 1%positive (BBytes "xyz") xreq_r1
          = (Return 2%positive, w')
      ∧ XREQ._delivery_queues (self w') !! "r1" = Some 2%positive
      ∧ chans (w_env w') !! 1%positive = Some [].
Proof.
  split; [vm_compute; reflexivity|]. split; [vm_compute; reflexivity|].
  destruct (duplicate_registration_replaces sample_uuid1 xreq_r1 1%positive (BBytes "xyz")
              "r1" 1%positive) as (w' & Hrun & Hdq & _ & Hold).
  - vm_compute. reflexivity.
  - vm_compute. reflexivity.
  - vm_compute. discriminate.
  - exists w'. split; [exact Hrun|]. split; [exact Hdq|].
    etransitivity; [exact Hold|]. vm_compute. reflexivity.
Defined.

(** Eleven seconds after the pending envelope was sent. *)
Lemma run_ack_timeout_raises_witness :
  (Resilient._ack_timeout
   < now (w_env (at_time (Q2Qc 11) resilient_connected)) - Q2Qc 0)%Qc
  ∧ Resilient.run sample_dumps sample_uuid1 false (at_time (Q2Qc 11) resilient_connected)
    = (Raise AttributeError, at_time (Q2Qc 11) resilient_connected).
Proof.
  split; [vm_compute; reflexivity|].
  apply (run_ack_timeout_raises sample_dumps sample_uuid1
           (at_time (Q2Qc 11) resilient_connected) (Q2Qc 0)).
  - reflexivity.
  - discriminate.
  - reflexivity.
  - vm_compute. reflexivity.
Defined.

(** The ack of the handshake "r1" reaches the handshaking client. *)
Lemma handshake_ack_raises_witness :
  Resilient._status (self (arrive ("request-id=r1;", []) resilient_handshaking))
    = Resilient._status_handshaking
  ∧ ∃ w', Resilient._pollster_callback sample_dumps sample_loads true false
            (arrive ("request-id=r1;", []) resilient_handshaking)
          = (Raise AttributeError, w')
      ∧ Resilient._status (self w') = Resilient._status_handshaking.
Proof.
  split; [reflexivity|].
  destruct (handshake_ack_raises sample_dumps sample_loads
              (arrive ("request-id=r1;", []) resilient_handshaking)
              "request-id=r1;" [] {["request-id" := "r1"]} 1%positive "r1")
    as (w' & Hrun & Hs & _).
  - reflexivity.
  - reflexivity.
  - vm_compute. reflexivity.
  - vm_compute. reflexivity.
  - repeat split; try reflexivity. eexists. vm_compute. reflexivity.
  - vm_compute. reflexivity.
  - vm_compute. reflexivity.
  - exists w'. split; [exact Hrun | exact Hs].
Defined.

(** A reply reaches a client whose pending slot is empty. *)
Lemma unexpected_reply_raises_witness :
  Resilient._pending_message (self (arrive ("request-id=zz;", []) resilient_idle))
    = Resilient.VNone
  ∧ ∃ w', Resilient._pollster_callback sample_dumps sample_loads true false
            (arrive ("request-id=zz;", []) resilient_idle)
          = (Raise AttributeError, w').
Proof.
  split; [reflexivity|].
  destruct (unexpected_reply_raises sample_dumps sample_loads
              (arrive ("request-id=zz;", []) resilient_idle)
              "request-id=zz;" [] {["request-id" := "zz"]})
    as (w' & Hrun & _).
  - reflexivity.
  - repeat split; try reflexivity. eexists. vm_compute. reflexivity.
  - vm_compute. reflexivity.
  - exists w'. exact Hrun.
Defined.

(** A connected, idle client is handed a control map without request-id:
    the first UUID drawn is written into the map and the call raises. *)
Lemma resilient_queue_writes_id_then_raises_witness :
  deref 1%positive (w_env resilient_idle_anonymous) !! "request-id" = None
  ∧ ∃ w', Resilient.queue_message_for_send sample_dumps sample_uuid1 1%positive BNone
            resilient_idle_anonymous = (Raise AttributeError, w')
      ∧ uuid_calls (w_env w') = 1%nat
      ∧ deref 1%positive (w_env w') !! "request-id"
        = Some "00000010000000000000000000000000".
Proof.
  split; [vm_compute; reflexivity|].
  destruct (resilient_queue_writes_id_then_raises sample_dumps sample_uuid1
              resilient_idle_anonymous 1%positive BNone)
    as (w' & Hrun & Hcalls & Hmap & _).
  - vm_compute. reflexivity.
  - vm_compute. reflexivity.
  - exists w'. split; [exact Hrun|]. split; [exact Hcalls|].
    rewrite Hmap. vm_compute. reflexivity.
Defined.

(** The housekeeping task runs on the handshaking client. *)
Lemma pending_slot_invariant_preserved_witness :
  ResilientSpec.pending_slot_invariant resilient_handshaking
  ∧ ResilientSpec.pending_slot_invariant
      (ResilientSpec.exec sample_dumps sample_loads sample_uuid1
         (ResilientSpec.Run false) resilient_handshaking).2.
Proof.
  assert (ResilientSpec.pending_slot_invariant resilient_handshaking) as H.
  { intros _. left. reflexivity. }
  split; [exact H|].
  exact (proj1 (pending_slot_invariant_preserved sample_dumps sample_loads sample_uuid1
                  (ResilientSpec.Run false) resilient_handshaking H)).
Defined.

(** * Further properties of the two clients *)

(** The frames [send_frames] gives to the socket for a control map and a
    body: the control frame, flagged SNDMORE exactly when a body follows,
    then every segment but the last flagged SNDMORE, then the last. *)
Definition frames_of (json_dumps : dict → string) (d : dict) (b : body)
  : list (string * bool) :=
  match b with
  | BNone => [(json_dumps d, false)]
  | _ =>
      (json_dumps d, true)
      :: map (λ s, (s, true)) (removelast (segments_of b))
      ++ match last (segments_of b) with
         | Some s => [(s, false)]
         | None => []
         end
  end.

(** How [send_frames] ends: [message.body[-1]] of an empty list or tuple
    raises. *)
Definition framing_outcome (b : body) : outcome unit :=
  match b with
  | BList [] | BTuple [] => Raise IndexError
  | _ => Return tt
  end.

Section Framing.
Variable json_dumps : dict → string.

Lemma send_frames_exact {C} (w : world C) ctl b :
  send_frames json_dumps ctl b w =
  (framing_outcome b,
   mkWorld (set_sock_sent (sock_sent (w_env w)
                           ++ frames_of json_dumps (deref ctl (w_env w)) b) (w_env w))
           (self w)).
Proof.
  unfold send_frames, frames_of, framing_outcome.
  destruct b as [|s|l|l]; [by exec | exec; by rewrite <- app_assoc | |].
  all: destruct l as [|x l _] using rev_ind;
    [ exec; rewrite ?send_each_more_spec;
      change (last (@nil string)) with (@None string);
      exec; by rewrite ?app_nil_r
    | exec; rewrite send_each_more_spec, last_snoc, List.removelast_last;
      exec; rewrite <- !app_assoc; by destruct l ].
Qed.

Lemma group_frames_message segments : ∀ cur y more first others,
  cur ++ segments ++ [y] = first :: others →
  group_frames (map (λ s, (s, true)) segments ++ (y, false) :: more) cur
  = (first, others) :: group_frames more [].
Proof.
  induction segments as [|s rest IH]; intros cur y more first others H; cbn in *.
  - by rewrite H.
  - apply IH. by rewrite <- app_assoc.
Qed.

(** The frames of a framable body are delivered as one multipart message,
    whatever follows them on the wire. *)
Lemma group_frames_of d b more :
  framable b →
  group_frames (frames_of json_dumps d b ++ more) []
  = (json_dumps d, segments_of b) :: group_frames more [].
Proof.
  intros Hfr. unfold frames_of, framable in *.
  destruct b as [|s|l|l]; cbn; try done.
  all: destruct Hfr as [Hne|]; [|done]; cbn in Hne.
  all: destruct (last_is_Some l Hne) as [x Hl]; rewrite Hl.
  all: rewrite <- app_assoc; cbn.
  all: apply (group_frames_message (removelast l) [json_dumps d] x more).
  all: cbn; f_equal; symmetry; by apply removelast_last.
Qed.

End Framing.

(** What sending and logging leave alone in the environment. *)
Definition only_sent_and_logged (e e' : env) : Prop :=
  heap e' = heap e ∧ next_loc e' = next_loc e
  ∧ chans e' = chans e ∧ next_chan e' = next_chan e
  ∧ sock_inbox e' = sock_inbox e ∧ sock_partial e' = sock_partial e
  ∧ sock_fault e' = sock_fault e
  ∧ now e' = now e ∧ uuid_calls e' = uuid_calls e.

(** The multipart message an envelope is on the wire, for a given heap. *)
Definition wire_message (json_dumps : dict → string) (e : env) (m : Message)
  : string * list string :=
  (json_dumps (deref (control m) e), segments_of (mbody m)).

Section XREQ_more.
Variable json_dumps : dict → string.
Variable json_loads : string → option dict.
Variable uuid1 : nat → N.

Lemma framing_outcome_framable b : framable b → framing_outcome b = Return tt.
Proof. destruct b as [|s|[|x l]|[|x l]]; intros [?|?]; done. Qed.

Lemma deref_same_heap l e e' : heap e' = heap e → deref l e' = deref l e.
Proof. unfold deref. by intros ->. Qed.

Lemma xreq_drain_spec queue : ∀ w : world XREQ.client,
  Forall (λ m, framable (mbody m)) queue →
  ∃ w' frames,
    XREQ.drain json_dumps queue w = (Return tt, w')
    ∧ XREQ._send_queue (self w')
      = match queue with [] => XREQ._send_queue (self w) | _ => [] end
    ∧ XREQ._delivery_queues (self w') = XREQ._delivery_queues (self w)
    ∧ only_sent_and_logged (w_env w) (w_env w')
    ∧ sock_sent (w_env w') = sock_sent (w_env w) ++ frames
    ∧ ∀ more, group_frames (frames ++ more) []
              = map (wire_message json_dumps (w_env w)) queue ++ group_frames more [].
Proof.
  induction queue as [|m rest IH]; intros w Hfr.
  - exists w, []. cbn. rewrite app_nil_r. by repeat split.
  - apply Forall_cons in Hfr as [Hm Hrest]. cbn [XREQ.drain].
    unfold XREQ._send_message. exec. rewrite send_frames_exact.
    rewrite framing_outcome_framable by done. cbn.
    match goal with |- context [XREQ.drain _ rest ?w1] =>
      destruct (IH w1 Hrest) as (w' & frames & -> & Hq & Hdq & Hsame & Hsent & Hgroup)
    end.
    cbn in *. eexists w', (_ ++ frames). split; [reflexivity|].
    split; [by destruct rest|]. split; [done|].
    split; [exact Hsame|]. split; [by rewrite Hsent, <- app_assoc|].
    intros more. rewrite <- app_assoc, group_frames_of, Hgroup by done.
    cbn. f_equal.
Qed.

(** [_receive_message] with every effect on the environment spelled out. *)
Lemma xreq_receive_full (w : world XREQ.client) frame rest msgs ctl :
  sock_fault (w_env w) = None →
  sock_partial (w_env w) = [] →
  sock_inbox (w_env w) = (frame, rest) :: msgs →
  json_loads frame = Some ctl →
  ∃ w', XREQ._receive_message json_loads w
        = (Return (Some (mkMessage (next_loc (w_env w)) (XREQ.unwrap_body rest))), w')
    ∧ self w' = self w
    ∧ heap (w_env w') = <[next_loc (w_env w) := ctl]> (heap (w_env w))
    ∧ next_loc (w_env w') = Pos.succ (next_loc (w_env w))
    ∧ chans (w_env w') = chans (w_env w)
    ∧ log (w_env w') = log (w_env w)
    ∧ sock_sent (w_env w') = sock_sent (w_env w)
    ∧ sock_fault (w_env w') = None
    ∧ sock_partial (w_env w') = []
    ∧ sock_inbox (w_env w') = msgs.
Proof.
  intros Hf Hp Hi Hj. unfold XREQ._receive_message.
  exec. rewrite Hf, Hp, Hi. exec. rewrite Hj. exec.
  rewrite recv_while_rcvmore_spec. cbn.
  returns. by destruct rest.
Qed.

Lemma xreq_resolve_full (w : world XREQ.client) frame rest msgs ctl rid q :
  sock_fault (w_env w) = None →
  sock_partial (w_env w) = [] →
  sock_inbox (w_env w) = (frame, rest) :: msgs →
  json_loads frame = Some ctl →
  ctl !! "request-id" = Some rid →
  XREQ._delivery_queues (self w) !! rid = Some q →
  ∃ w', XREQ._pollster_callback json_dumps json_loads true false w = (Return tt, w')
    ∧ XREQ._delivery_queues (self w') = delete rid (XREQ._delivery_queues (self w))
    ∧ XREQ._send_queue (self w') = XREQ._send_queue (self w)
    ∧ chans (w_env w')
      = <[q := default [] (chans (w_env w) !! q)
                 ++ [(next_loc (w_env w), XREQ.unwrap_body rest)]]> (chans (w_env w))
    ∧ heap (w_env w') = <[next_loc (w_env w) := ctl]> (heap (w_env w))
    ∧ next_loc (w_env w') = Pos.succ (next_loc (w_env w))
    ∧ sock_fault (w_env w') = None
    ∧ sock_partial (w_env w') = []
    ∧ sock_inbox (w_env w') = msgs.
Proof.
  intros Hf Hp Hi Hj Hrid Hq.
  destruct (xreq_receive_full w frame rest msgs ctl Hf Hp Hi Hj)
    as (w1 & Hrecv & Hself & Hheap & Hnl & Hchans & Hlog & Hsent & Hf1 & Hp1 & Hi1).
  unfold XREQ._pollster_callback. exec. rewrite Hrecv. exec.
  rewrite Hheap, lookup_insert_eq. cbn. rewrite Hrid, Hself, Hq. exec.
  returns. by rewrite Hself, Hchans.
Qed.

Lemma xreq_writable_spec (w : world XREQ.client) :
  Forall (λ m, framable (mbody m)) (XREQ._send_queue (self w)) →
  ∃ w', XREQ._pollster_callback json_dumps json_loads false true w = (Return tt, w')
    ∧ XREQ._send_queue (self w') = []
    ∧ XREQ._delivery_queues (self w') = XREQ._delivery_queues (self w)
    ∧ group_frames (transmitted w w') []
      = map (wire_message json_dumps (w_env w)) (XREQ._send_queue (self w)).
Proof.
  intros Hfr.
  destruct (xreq_drain_spec (XREQ._send_queue (self w)) w Hfr)
    as (w' & frames & Hrun & Hq & Hdq & _ & Hsent & Hgroup).
  unfold XREQ._pollster_callback. exec. rewrite Hrun. exec.
  exists w'. split; [done|].
  split; [rewrite Hq; by destruct (XREQ._send_queue (self w))|].
  split; [done|]. unfold transmitted. rewrite Hsent, drop_app_length.
  specialize (Hgroup []). by rewrite !app_nil_r in Hgroup.
Qed.


(** X2.  An envelope whose body is an empty list or tuple stops the
    drain: [_send_message] raises [IndexError] after the control frame went
    out flagged SNDMORE; the envelope has left the queue, the envelopes
    behind it stay queued. *)
Theorem empty_sequence_body_stops_drain (w : world XREQ.client) m rest :
  XREQ._send_queue (self w) = m :: rest →
  mbody m = BList [] ∨ mbody m = BTuple [] →
  ∃ w', XREQ._pollster_callback json_dumps json_loads true true w = (Raise IndexError, w')
    ∧ XREQ._send_queue (self w') = rest
    ∧ transmitted w w' = [(json_dumps (deref (control m) (w_env w)), true)]
    ∧ group_frames (transmitted w w') [] = [].
Proof.
  intros Hq Hb. unfold XREQ._pollster_callback. exec. rewrite Hq.
  cbn [XREQ.drain]. unfold XREQ._send_message. exec. rewrite send_frames_exact.
  unfold transmitted.
  destruct Hb as [-> | ->]; cbn; returns; by rewrite drop_app_length.
Qed.

(** X3.  A reply whose control map has no "request-id" is logged and
    dropped: the callback returns, no entry leaves the registry and no
    channel receives anything. *)
Theorem reply_without_request_id_dropped (w : world XREQ.client) frame rest ctl :
  reply_waiting w frame rest →
  json_loads frame = Some ctl →
  ctl !! "request-id" = None →
  ∃ w', XREQ._pollster_callback json_dumps json_loads true false w = (Return tt, w')
    ∧ self w' = self w
    ∧ chans (w_env w') = chans (w_env w)
    ∧ log (w_env w') = log (w_env w) ++ [(ERROR, "message has no 'request-id' %s")].
Proof.
  intros (Hf & Hp & msgs & Hi) Hj Hrid.
  destruct (xreq_receive_full w frame rest msgs ctl Hf Hp Hi Hj)
    as (w1 & Hrecv & Hself & Hheap & _ & Hchans & Hlog & _).
  unfold XREQ._pollster_callback. exec. rewrite Hrecv. exec.
  rewrite Hheap, lookup_insert_eq. cbn. rewrite Hrid. exec.
  returns. by rewrite Hself, Hchans, Hlog.
Qed.

(** X4.  A first frame that is not JSON at all, so that [json.loads]
    raises on it ([json_loads frame = None]), makes the callback raise
    [ValueError]; the frame is consumed, the frames that followed it stay
    unread on the socket, and the registry and the channels are as they
    were. *)
Theorem unparsable_control_frame_raises (w : world XREQ.client) frame rest msgs :
  sock_fault (w_env w) = None →
  sock_partial (w_env w) = [] →
  sock_inbox (w_env w) = (frame, rest) :: msgs →
  json_loads frame = None →
  ∃ w', XREQ._pollster_callback json_dumps json_loads true false w = (Raise ValueError, w')
    ∧ self w' = self w
    ∧ chans (w_env w') = chans (w_env w)
    ∧ sock_partial (w_env w') = rest
    ∧ sock_inbox (w_env w') = msgs.
Proof.
  intros Hf Hp Hi Hj. unfold XREQ._pollster_callback, XREQ._receive_message.
  exec. rewrite Hf, Hp, Hi. exec. rewrite Hj. exec. by returns.
Qed.

(** X5.  A socket error other than EAGAIN is raised again by the
    [_receive_message] of either client, with nothing logged and nothing
    changed. *)
Theorem socket_error_propagates (wx : world XREQ.client)
  (wr : world Resilient.client) errno :
  sock_fault (w_env wx) = Some errno →
  sock_fault (w_env wr) = Some errno →
  errno ≠ EAGAIN →
  XREQ._receive_message json_loads wx = (Raise (ZMQError errno), wx)
  ∧ Resilient._receive_message json_loads wr = (Raise (ZMQError errno), wr).
Proof.
  intros Hx Hr He. unfold XREQ._receive_message, Resilient._receive_message.
  exec. rewrite Hx, Hr. exec.
  destruct (decide (errno = EAGAIN)); done.
Qed.

(** X6.  With nothing to read, a readable callback of the multiplexed
    client returns normally: the would-block is logged as a warning and
    the client and the channels are as they were. *)
Theorem nothing_to_read_returns (w : world XREQ.client) :
  quiet w →
  ∃ w', XREQ._pollster_callback json_dumps json_loads true false w = (Return tt, w')
    ∧ self w' = self w
    ∧ chans (w_env w') = chans (w_env w)
    ∧ heap (w_env w') = heap (w_env w)
    ∧ log (w_env w') = log (w_env w) ++ [(WARN, "socket would have blocked")].
Proof.
  intros (Hf & Hp & Hi). unfold XREQ._pollster_callback, XREQ._receive_message.
  exec. rewrite Hf, Hp, Hi. exec. by returns.
Qed.

(** X7.  [_receive_message] of the multiplexed client reads a whole
    multipart message, however many frames it has: afterwards the socket
    stands at the next message. *)
Theorem receive_consumes_whole_message (w : world XREQ.client) frame rest msgs ctl :
  sock_fault (w_env w) = None →
  sock_partial (w_env w) = [] →
  sock_inbox (w_env w) = (frame, rest) :: msgs →
  json_loads frame = Some ctl →
  ∃ m w', XREQ._receive_message json_loads w = (Return (Some m), w')
    ∧ deref (control m) (w_env w') = ctl
    ∧ segments_of (mbody m) = rest
    ∧ sock_partial (w_env w') = []
    ∧ sock_inbox (w_env w') = msgs.
Proof.
  intros Hf Hp Hi Hj.
  destruct (xreq_receive_full w frame rest msgs ctl Hf Hp Hi Hj)
    as (w' & Hrecv & _ & Hheap & _ & _ & _ & _ & _ & Hp' & Hi').
  eexists _, w'. split; [exact Hrecv|]. cbn.
  split; [unfold deref; by rewrite Hheap, lookup_insert_eq|].
  split; [by destruct rest as [|? [|? ?]]|]. done.
Qed.


(** X9.  Replies are routed by request-id, not by order: with two
    requests outstanding and the reply to the second arriving first, each
    channel receives its own reply and both entries leave the registry. *)
Theorem replies_routed_by_request_id (w : world XREQ.client)
  f1 r1 c1 rid1 q1 f2 r2 c2 rid2 q2 :
  sock_fault (w_env w) = None →
  sock_partial (w_env w) = [] →
  sock_inbox (w_env w) = [(f2, r2); (f1, r1)] →
  json_loads f1 = Some c1 → c1 !! "request-id" = Some rid1 →
  json_loads f2 = Some c2 → c2 !! "request-id" = Some rid2 →
  XREQ._delivery_queues (self w) !! rid1 = Some q1 →
  XREQ._delivery_queues (self w) !! rid2 = Some q2 →
  rid1 ≠ rid2 →
  q1 ≠ q2 →
  ∃ w1 w2,
    XREQ._pollster_callback json_dumps json_loads true false w = (Return tt, w1)
    ∧ XREQ._pollster_callback json_dumps json_loads true false w1 = (Return tt, w2)
    ∧ chans (w_env w2) !! q1
      = Some (default [] (chans (w_env w) !! q1)
              ++ [(Pos.succ (next_loc (w_env w)), XREQ.unwrap_body r1)])
    ∧ chans (w_env w2) !! q2
      = Some (default [] (chans (w_env w) !! q2)
              ++ [(next_loc (w_env w), XREQ.unwrap_body r2)])
    ∧ deref (Pos.succ (next_loc (w_env w))) (w_env w2) = c1
    ∧ deref (next_loc (w_env w)) (w_env w2) = c2
    ∧ XREQ._delivery_queues (self w2)
      = delete rid1 (delete rid2 (XREQ._delivery_queues (self w))).
Proof.
  intros Hf Hp Hi Hj1 Hrid1 Hj2 Hrid2 Hq1 Hq2 Hrid Hq.
  destruct (xreq_resolve_full w f2 r2 [(f1, r1)] c2 rid2 q2)
    as (w1 & Hrun1 & Hdq1 & _ & Hch1 & Hheap1 & Hnl1 & Hf1 & Hp1 & Hi1); try done.
  destruct (xreq_resolve_full w1 f1 r1 [] c1 rid1 q1)
    as (w2 & Hrun2 & Hdq2 & _ & Hch2 & Hheap2 & _); try done.
  { by rewrite Hdq1, lookup_delete_ne. }
  exists w1, w2. split; [done|]. split; [done|].
  rewrite Hch2, Hch1, Hnl1. unfold deref. rewrite Hheap2, Hheap1, Hnl1.
  rewrite lookup_insert_eq, !lookup_insert_ne, !lookup_insert_eq by done.
  rewrite lookup_insert_ne by lia. rewrite lookup_insert_eq.
  by rewrite Hdq2, Hdq1.
Qed.

(** X10.  The queue holds the caller's map by reference: a key the
    caller writes into the map after [queue_message_for_send] and before
    the writable callback is part of the control frame that goes out. *)
Theorem control_map_serialized_at_send_time (w : world XREQ.client)
  l data key v :
  XREQ._send_queue (self w) = [] →
  framable data →
  ∃ q w1 w2 w3,
    XREQ.queue_message_for_send uuid1 l data w = (Return q, w1)
    ∧ setitem l key v w1 = (Return tt, w2)
    ∧ XREQ._pollster_callback json_dumps json_loads false true w2 = (Return tt, w3)
    ∧ group_frames (transmitted w2 w3) []
      = [(json_dumps (<[key := v]> (deref l (w_env w1))), segments_of data)].
Proof.
  intros Hq Hfr.
  destruct (xreq_queue_spec uuid1 w l data)
    as (rid & w1 & Hrun1 & _ & _ & _ & Hsq1 & _).
  destruct (xreq_writable_spec
              (mkWorld (set_heap (<[l := <[key := v]> (deref l (w_env w1))]> (heap (w_env w1)))
                                 (w_env w1)) (self w1)))
    as (w3 & Hrun3 & _ & _ & Hgroup).
  { cbn. rewrite Hsq1, Hq. cbn. constructor; [exact Hfr | constructor]. }
  eexists _, w1, _, w3. split; [exact Hrun1|]. split; [reflexivity|].
  split; [exact Hrun3|]. rewrite Hgroup. cbn. rewrite Hsq1, Hq. cbn.
  unfold wire_message, deref. cbn. by rewrite lookup_insert_eq.
Qed.

(** X21.  [queue_message_for_send] of the multiplexed client returns, and
    assigns the request-id in the caller's own map: when the map has no
    "request-id", exactly one UUID is drawn and its 32 hexadecimal digits
    are stored under that key, every other key of the map as it was; when
    the map has one, no UUID is drawn and no map changes.  No other object
    is touched in either case. *)
Theorem xreq_queue_assigns_request_id_in_place (w : world XREQ.client) l data :
  ∃ w', XREQ.queue_message_for_send uuid1 l data w = (Return (next_chan (w_env w)), w')
    ∧ match deref l (w_env w) !! "request-id" with
      | Some _ =>
          uuid_calls (w_env w') = uuid_calls (w_env w)
          ∧ heap (w_env w') = heap (w_env w)
      | None =>
          uuid_calls (w_env w') = S (uuid_calls (w_env w))
          ∧ deref l (w_env w')
            = <["request-id" := uuid_hex (uuid1 (uuid_calls (w_env w)))]>
                (deref l (w_env w))
          ∧ String.length (uuid_hex (uuid1 (uuid_calls (w_env w)))) = 32%nat
          ∧ Forall is_hex_digit
              (list_ascii_of_string (uuid_hex (uuid1 (uuid_calls (w_env w)))))
      end
    ∧ ∀ l', l' ≠ l → heap (w_env w') !! l' = heap (w_env w) !! l'.
Proof.
  unfold XREQ.queue_message_for_send. exec.
  destruct (default ∅ _ !! "request-id") as [rid|] eqn:Hrid.
  - destruct (decide _) as [_|H]; [|exfalso; apply H; eauto].
    repeat (exec; rewrite ?Hrid, ?lookup_insert_eq).
    returns. done.
  - destruct (decide _) as [[? H]|_]; [discriminate|].
    repeat (exec; rewrite ?Hrid, ?lookup_insert_eq).
    returns. rewrite !lookup_insert_eq. cbn.
    split; [|intros l' Hl; by rewrite lookup_insert_ne].
    split; [done|]. split; [done|].
    split; [apply uuid_hex_length | apply uuid_hex_digits].
Qed.

End XREQ_more.


Section Resilient_more.
Import Resilient ResilientSpec.
Variable json_dumps : dict → string.
Variable json_loads : string → option dict.
Variable uuid1 : nat → N.

(** The control map of a message once [_send_message] has stamped it. *)
Definition stamped (w : world client) (m : Message) : dict :=
  <["client-tag" := _client_tag (self w)]> (deref (control m) (w_env w)).

Lemma resilient_send_spec (w : world client) m :
  ∃ w', _send_message json_dumps (VMessage m) w = (framing_outcome (mbody m), w')
    ∧ self w' = self w
    ∧ heap (w_env w') = <[control m := stamped w m]> (heap (w_env w))
    ∧ sock_sent (w_env w')
      = sock_sent (w_env w) ++ frames_of json_dumps (stamped w m) (mbody m)
    ∧ now (w_env w') = now (w_env w).
Proof.
  unfold _send_message, getattr_control, getattr_body, stamped. exec.
  rewrite send_frames_exact. returns. unfold deref. cbn.
  by rewrite lookup_insert_eq.
Qed.

(** X11.  [_send_message] of the resilient client writes the client's tag
    into the caller's control map, over any value the key had, and sends
    the map as stamped; no other key, no other object and nothing of the
    client changes.  It ends as the framing ends: [IndexError] for an empty
    list or tuple, a normal return otherwise. *)
Theorem send_message_stamps_client_tag (w : world client) m :
  ∃ w', _send_message json_dumps (VMessage m) w = (framing_outcome (mbody m), w')
    ∧ self w' = self w
    ∧ deref (control m) (w_env w')
      = <["client-tag" := _client_tag (self w)]> (deref (control m) (w_env w))
    ∧ (∀ l, l ≠ control m → heap (w_env w') !! l = heap (w_env w) !! l)
    ∧ transmitted w w'
      = frames_of json_dumps
          (<["client-tag" := _client_tag (self w)]> (deref (control m) (w_env w)))
          (mbody m).
Proof.
  destruct (resilient_send_spec w m) as (w' & Hrun & Hself & Hheap & Hsent & _).
  exists w'. split; [done|]. split; [done|].
  split; [unfold deref at 1; by rewrite Hheap, lookup_insert_eq|].
  split; [intros l Hl; by rewrite Hheap, lookup_insert_ne|].
  unfold transmitted. by rewrite Hsent, drop_app_length.
Qed.

(** X12.  Sending the same message again puts the same frames on the wire
    and leaves the heap as the first send left it: the stamp is the same
    each time. *)
Theorem resend_carries_the_same_frames (w : world client) m :
  ∃ w1 w2,
    _send_message json_dumps (VMessage m) w = (framing_outcome (mbody m), w1)
    ∧ _send_message json_dumps (VMessage m) w1 = (framing_outcome (mbody m), w2)
    ∧ transmitted w1 w2 = transmitted w w1
    ∧ heap (w_env w2) = heap (w_env w1).
Proof.
  destruct (resilient_send_spec w m) as (w1 & Hrun1 & Hself1 & Hheap1 & Hsent1 & _).
  destruct (resilient_send_spec w1 m) as (w2 & Hrun2 & _ & Hheap2 & Hsent2 & _).
  assert (stamped w1 m = stamped w m) as Hst.
  { unfold stamped, deref. rewrite Hself1, Hheap1, lookup_insert_eq. cbn.
    apply insert_insert_eq. }
  exists w1, w2. split; [done|]. split; [done|].
  unfold transmitted. rewrite Hsent2, Hsent1, !drop_app_length, Hst.
  split; [done|]. rewrite Hheap2, Hst, Hheap1. apply insert_insert_eq.
Qed.

(** X13.  [_receive_message] of the resilient client reads one frame
    only.  The trailing frames of a multipart reply stay on the socket, and
    the next call takes the first of them for a control frame: it is parsed
    as JSON, and the call raises [ValueError] when it is not JSON. *)
Theorem resilient_receive_reads_one_frame (w : world client)
  frame f2 rest msgs ctl :
  sock_fault (w_env w) = None →
  sock_partial (w_env w) = [] →
  sock_inbox (w_env w) = (frame, f2 :: rest) :: msgs →
  json_loads frame = Some ctl →
  ∃ w1, _receive_message json_loads w = (Return (Some (next_loc (w_env w))), w1)
    ∧ deref (next_loc (w_env w)) (w_env w1) = ctl
    ∧ sock_partial (w_env w1) = f2 :: rest
    ∧ sock_inbox (w_env w1) = msgs
    ∧ match json_loads f2 with
      | Some c2 =>
          ∃ w2, _receive_message json_loads w1
                = (Return (Some (next_loc (w_env w1))), w2)
            ∧ deref (next_loc (w_env w1)) (w_env w2) = c2
            ∧ sock_partial (w_env w2) = rest
            ∧ sock_inbox (w_env w2) = msgs
      | None =>
          ∃ w2, _receive_message json_loads w1 = (Raise ValueError, w2)
            ∧ sock_partial (w_env w2) = rest
            ∧ sock_inbox (w_env w2) = msgs
      end.
Proof.
  intros Hf Hp Hi Hj. unfold _receive_message. exec.
  rewrite Hf, Hp, Hi. exec. rewrite Hj. exec.
  returns. rewrite lookup_insert_eq. do 3 (split; [done|]).
  rewrite Hf. exec. destruct (json_loads f2) as [c2|]; exec.
  - returns. by rewrite lookup_insert_eq.
  - by returns.
Qed.

(** X14.  The constructor never completes: [__init__] raises
    [AttributeError] from [_send_handshake] at the lock, after it has drawn
    one UUID and built the handshake dict and before anything is sent; the
    object is left disconnected, with an empty queue and an empty slot. *)
Theorem constructor_raises_before_handshake tag address deliverator (e : env) :
  ∃ w', __init__ json_dumps uuid1 tag address deliverator e = (Raise AttributeError, w')
    ∧ sock_sent (w_env w') = sock_sent e
    ∧ uuid_calls (w_env w') = S (uuid_calls e)
    ∧ deref (next_loc e) (w_env w')
      = <["message-type" := "resilient-server-handshake"]>
          (<["request-id" := uuid_hex (uuid1 (uuid_calls e))]>
          (<["client-tag" := tag]> (<["client-address" := address]> ∅)))
    ∧ _status (self w') = _status_disconnected
    ∧ _status_time (self w') = now e
    ∧ _pending_message (self w') = VNone
    ∧ _send_queue (self w') = [].
Proof.
  unfold __init__, _send_handshake. exec. rewrite lock_acquire_raises.
  returns. by rewrite lookup_insert_eq.
Qed.

(** X15.  The callback consumes the message it fails on: the frame it
    read has left the socket when [AttributeError] reaches the caller, so
    the ack is not seen again by a later callback. *)
Theorem callback_consumes_the_message_it_drops (w : world client)
  frame rest msgs ctl :
  sock_fault (w_env w) = None →
  sock_partial (w_env w) = [] →
  sock_inbox (w_env w) = (frame, rest) :: msgs →
  json_loads frame = Some ctl →
  ∃ w', _pollster_callback json_dumps json_loads true false w = (Raise AttributeError, w')
    ∧ sock_inbox (w_env w') = msgs
    ∧ sock_partial (w_env w') = rest
    ∧ deref (next_loc (w_env w)) (w_env w') = ctl
    ∧ self w' = self w.
Proof.
  intros Hf Hp Hi Hj. unfold _pollster_callback, _receive_message. exec.
  rewrite Hf, Hp, Hi. exec. rewrite Hj. exec. rewrite lock_acquire_raises.
  returns. by rewrite lookup_insert_eq.
Qed.

(** X16.  Whenever [run] returns, it answers its own next invocation:
    none when the halt event is set, otherwise exactly one, a polling
    interval (3 seconds) from now; and it has changed nothing of the
    client and sent nothing. *)
Theorem run_answers_its_next_invocation halt (w w' : world client) r :
  run json_dumps uuid1 halt w = (Return r, w') →
  r = (if halt then [] else [(now (w_env w) + polling_interval)%Qc])
  ∧ self w' = self w
  ∧ transmitted w w' = [].
Proof.
  unfold run, elapsed_since. destruct halt; exec.
  { intros [= <- <-]. split; [done|]. split; [done|]. by apply transmitted_nil. }
  repeat (case_match; simplify_eq; exec); rewrite ?lock_acquire_raises;
    try (intros; by simplify_eq).
  all: intros [= <- <-]; split; [done|]; split; [done|]; by apply transmitted_nil.
Qed.

(** X17.  With the halt event not set, [run] returns only from the
    disconnected status within the retry interval of 60 seconds, or from a
    status that is none of the three; from connected, from handshaking,
    and from disconnected past the retry interval it raises. *)
Theorem run_returns_iff (w : world client) :
  (∃ r w', run json_dumps uuid1 false w = (Return r, w'))
  ↔ (_status (self w) = _status_disconnected
     ∧ ¬ (_handshake_retry_interval < now (w_env w) - _status_time (self w))%Qc)
    ∨ (_status (self w) ≠ _status_connected
       ∧ _status (self w) ≠ _status_disconnected
       ∧ _status (self w) ≠ _status_handshaking).
Proof.
  unfold run, elapsed_since. exec.
  destruct (decide (_status (self w) = _status_connected)) as [Hc|Hc]; exec.
  { rewrite lock_acquire_raises. split; [by intros (? & ? & ?)|].
    intros [[Hs _]|[Hs _]]; [|done]. rewrite Hs in Hc. discriminate. }
  destruct (decide (_status (self w) = _status_disconnected)) as [Hd|Hd]; exec.
  { destruct (decide _) as [Hlate|Hlate]; exec.
    - destruct (send_handshake_raises json_dumps uuid1 w) as (w1 & -> & _).
      split; [by intros (? & ? & ?)|]. intros [[_ Hn]|[_ [Hs _]]]; done.
    - split; [intros _; by left|]. intros _. eauto. }
  destruct (decide (_status (self w) = _status_handshaking)) as [Hh|Hh]; exec.
  { rewrite lock_acquire_raises. split; [by intros (? & ? & ?)|].
    intros [[Hs _]|[_ [_ Hs]]]; done. }
  split; [intros _; by right|]. intros _. eauto.
Qed.

(** X18.  The handshaking branch of [run], lines 211 to 218 taken on
    their own: a handshake pending longer than the ack timeout of 10
    seconds is dropped, not requeued, and the status becomes disconnected
    as of now; a younger one is left alone. *)
Theorem handshake_timeout_drops_the_handshake (w : world client) t0 :
  _pending_message (self w) ≠ VNone →
  _pending_message_start_time (self w) = Some t0 →
  ((_ack_timeout < now (w_env w) - t0)%Qc →
     ∃ w', run_handshaking_locked w = (Return tt, w')
       ∧ _status (self w') = _status_disconnected
       ∧ _status_time (self w') = now (w_env w)
       ∧ _pending_message (self w') = VNone
       ∧ _pending_message_start_time (self w') = None
       ∧ _send_queue (self w') = _send_queue (self w)
       ∧ transmitted w w' = [])
  ∧ (¬ (_ack_timeout < now (w_env w) - t0)%Qc →
     run_handshaking_locked w = (Return tt, w)).
Proof.
  intros Hp Ht. unfold run_handshaking_locked, elapsed_since. exec.
  destruct (decide (_pending_message (self w) ≠ VNone)); [|done].
  rewrite Ht. exec. split; intros Hlate; destruct (decide _); try done.
  exec. returns. repeat (split; [done|]). by apply transmitted_nil.
Qed.

(** X19.  The callback's block, lines 124 to 152 taken on their own, on
    an ack whose request-id is not the pending message's: the mismatch is
    logged and nothing else happens.  The message stays pending, nothing
    is dequeued, nothing is sent. *)
Theorem mismatched_ack_leaves_the_message_pending (w : world client)
  message pm rid rid' :
  _pending_message (self w) = VMessage pm →
  deref (control pm) (w_env w) !! "request-id" = Some rid →
  deref message (w_env w) !! "request-id" = Some rid' →
  rid' ≠ rid →
  ∃ w', callback_locked json_dumps message w = (Return tt, w')
    ∧ self w' = self w
    ∧ heap (w_env w') = heap (w_env w)
    ∧ transmitted w w' = []
    ∧ log (w_env w') = log (w_env w) ++ [(ERROR, "unknown ack %s expecting %s")].
Proof.
  intros Hp Hrid Hack Hne. unfold deref in Hrid, Hack.
  unfold callback_locked, getattr_control, subscript. exec.
  rewrite Hp. destruct (decide (VMessage pm = VNone)); [done|]. exec.
  rewrite Hrid. exec. rewrite Hack. exec.
  destruct (decide (rid' ≠ rid)); [|done]. exec.
  returns. repeat (split; [done|]). split; [|done]. by apply transmitted_nil.
Qed.


End Resilient_more.

(** * The further properties at sample inputs *)

Definition put_r2 : dict := <["message-type" := "get"]> {["request-id" := "r2"]}.

(** Two callers' maps at addresses 1 and 2, and the multiplexed client
    with both requests queued: channel 1 for "r1", channel 2 for "r2". *)
Definition env_two : env :=
  set_next_loc 3%positive
    (set_heap (<[2%positive := put_r2]> {[1%positive := put_r1]}) env0).
Definition xreq_two : world XREQ.client :=
  (XREQ.queue_message_for_send sample_uuid1 2%positive (BList ["ab"; "cd"])
     (XREQ.queue_message_for_send sample_uuid1 1%positive (BBytes "abc")
        (XREQ.__init__ env_two)).2).2.

(** The multiplexed client with one envelope queued whose body is an
    empty list. *)
Definition xreq_empty_body : world XREQ.client :=
  (XREQ.queue_message_for_send sample_uuid1 1%positive (BList []) xreq_fresh).2.

(** A socket that failed with ETERM. *)
Definition ETERM : Z := 156384765.
Definition faulty {C} (w : world C) : world C :=
  let e := w_env w in
  mkWorld (mkEnv (heap e) (next_loc e) (chans e) (next_chan e) (sock_sent e)
                 (sock_inbox e) (sock_partial e) (Some ETERM) (log e) (now e)
                 (uuid_calls e))
          (self w).

(** The connected client of [resilient_connected] with an ack for "zz" at
    address 3. *)
Definition resilient_wrong_ack : world Resilient.client :=
  mkWorld (set_next_loc 4%positive
             (set_heap (<[3%positive := {["request-id" := "zz"]}]>
                          (heap (w_env resilient_connected)))
                       (w_env resilient_connected)))
          (self resilient_connected).


Lemma empty_sequence_body_stops_drain_witness :
  XREQ._send_queue (self xreq_empty_body) = [mkMessage 1%positive (BList [])]
  ∧ ∃ w', XREQ._pollster_callback sample_dumps sample_loads true true xreq_empty_body
          = (Raise IndexError, w')
      ∧ XREQ._send_queue (self w') = []
      ∧ transmitted xreq_empty_body w' = [("message-type=put;request-id=r1;", true)].
Proof.
  split; [vm_compute; reflexivity|].
  destruct (empty_sequence_body_stops_drain sample_dumps sample_loads xreq_empty_body
              (mkMessage 1%positive (BList [])) [])
    as (w' & Hrun & Hq & Hsent & _).
  - vm_compute. reflexivity.
  - left. reflexivity.
  - exists w'. split; [exact Hrun|]. split; [exact Hq|].
    etransitivity; [exact Hsent|]. vm_compute. reflexivity.
Defined.

Lemma reply_without_request_id_dropped_witness :
  sample_loads "message-type=ack;" = Some {["message-type" := "ack"]}
  ∧ ∃ w', XREQ._pollster_callback sample_dumps sample_loads true false
            (arrive ("message-type=ack;", []) xreq_r1) = (Return tt, w')
      ∧ self w' = self xreq_r1.
Proof.
  split; [vm_compute; reflexivity|].
  destruct (reply_without_request_id_dropped sample_dumps sample_loads
              (arrive ("message-type=ack;", []) xreq_r1)
              "message-type=ack;" [] {["message-type" := "ack"]})
    as (w' & Hrun & Hself & _).
  - repeat split; try reflexivity. eexists. vm_compute. reflexivity.
  - vm_compute. reflexivity.
  - vm_compute. reflexivity.
  - exists w'. split; [exact Hrun | exact Hself].
Defined.

Lemma unparsable_control_frame_raises_witness :
  sample_loads "garbage" = None
  ∧ ∃ w', XREQ._pollster_callback sample_dumps sample_loads true false
            (arrive ("garbage", ["tail"]) xreq_r1) = (Raise ValueError, w')
      ∧ sock_partial (w_env w') = ["tail"].
Proof.
  split; [vm_compute; reflexivity|].
  destruct (unparsable_control_frame_raises sample_dumps sample_loads
              (arrive ("garbage", ["tail"]) xreq_r1) "garbage" ["tail"] [])
    as (w' & Hrun & _ & _ & Hp & _).
  - reflexivity.
  - reflexivity.
  - vm_compute. reflexivity.
  - vm_compute. reflexivity.
  - exists w'. split; [exact Hrun | exact Hp].
Defined.

Lemma socket_error_propagates_witness :
  ETERM ≠ EAGAIN
  ∧ XREQ._receive_message sample_loads (faulty xreq_r1)
    = (Raise (ZMQError ETERM), faulty xreq_r1)
  ∧ Resilient._receive_message sample_loads (faulty resilient_idle)
    = (Raise (ZMQError ETERM), faulty resilient_idle).
Proof.
  split; [discriminate|].
  apply (socket_error_propagates sample_loads (faulty xreq_r1) (faulty resilient_idle) ETERM).
  - reflexivity.
  - reflexivity.
  - discriminate.
Defined.

Lemma nothing_to_read_returns_witness :
  quiet xreq_r1
  ∧ ∃ w', XREQ._pollster_callback sample_dumps sample_loads true false xreq_r1
          = (Return tt, w')
      ∧ self w' = self xreq_r1.
Proof.
  assert (quiet xreq_r1) as H by (repeat split; reflexivity).
  split; [exact H|].
  destruct (nothing_to_read_returns sample_dumps sample_loads xreq_r1 H)
    as (w' & Hrun & Hself & _).
  exists w'. split; [exact Hrun | exact Hself].
Defined.

Lemma receive_consumes_whole_message_witness :
  sample_loads "request-id=r1;" = Some {["request-id" := "r1"]}
  ∧ ∃ m w', XREQ._receive_message sample_loads
              (arrive ("request-id=r9;", [])
                 (arrive ("request-id=r1;", ["a"; "b"; "c"]) xreq_r1))
            = (Return (Some m), w')
      ∧ segments_of (mbody m) = ["a"; "b"; "c"]
      ∧ sock_partial (w_env w') = []
      ∧ sock_inbox (w_env w') = [("request-id=r9;", [])].
Proof.
  split; [vm_compute; reflexivity|].
  destruct (receive_consumes_whole_message sample_loads
              (arrive ("request-id=r9;", [])
                 (arrive ("request-id=r1;", ["a"; "b"; "c"]) xreq_r1))
              "request-id=r1;" ["a"; "b"; "c"] [("request-id=r9;", [])]
              {["request-id" := "r1"]})
    as (m & w' & Hrun & _ & Hsegs & Hp & Hi).
  - reflexivity.
  - reflexivity.
  - vm_compute. reflexivity.
  - vm_compute. reflexivity.
  - exists m, w'. split; [exact Hrun|]. split; [exact Hsegs|]. split; [exact Hp | exact Hi].
Defined.


(** The reply to "r2" arrives before the reply to "r1". *)
Lemma replies_routed_by_request_id_witness :
  XREQ._delivery_queues (self xreq_two) !! "r1" = Some 1%positive
  ∧ XREQ._delivery_queues (self xreq_two) !! "r2" = Some 2%positive
  ∧ ∃ w1 w2,
      XREQ._pollster_callback sample_dumps sample_loads true false
        (arrive ("request-id=r1;", ["one"]) (arrive ("request-id=r2;", ["two"]) xreq_two))
      = (Return tt, w1)
      ∧ XREQ._pollster_callback sample_dumps sample_loads true false w1 = (Return tt, w2)
      ∧ chans (w_env w2) !! 1%positive = Some [(4%positive, BBytes "one")]
      ∧ chans (w_env w2) !! 2%positive = Some [(3%positive, BBytes "two")].
Proof.
  split; [vm_compute; reflexivity|]. split; [vm_compute; reflexivity|].
  destruct (replies_routed_by_request_id sample_dumps sample_loads
              (arrive ("request-id=r1;", ["one"])
                 (arrive ("request-id=r2;", ["two"]) xreq_two))
              "request-id=r1;" ["one"] {["request-id" := "r1"]} "r1" 1%positive
              "request-id=r2;" ["two"] {["request-id" := "r2"]} "r2" 2%positive)
    as (w1 & w2 & Hrun1 & Hrun2 & Hq1 & Hq2 & _).
  - reflexivity.
  - reflexivity.
  - vm_compute. reflexivity.
  - vm_compute. reflexivity.
  - vm_compute. reflexivity.
  - vm_compute. reflexivity.
  - vm_compute. reflexivity.
  - vm_compute. reflexivity.
  - vm_compute. reflexivity.
  - discriminate.
  - discriminate.
  - exists w1, w2. split; [exact Hrun1|]. split; [exact Hrun2|].
    split; (etransitivity; [eassumption|]); vm_compute; reflexivity.
Defined.

(** The caller adds a key after queueing. *)
Lemma control_map_serialized_at_send_time_witness :
  XREQ._send_queue (self xreq_fresh) = []
  ∧ ∃ q w1 w2 w3,
      XREQ.queue_message_for_send sample_uuid1 1%positive (BBytes "abc") xreq_fresh
        = (Return q, w1)
      ∧ setitem 1%positive "late" "yes" w1 = (Return tt, w2)
      ∧ XREQ._pollster_callback sample_dumps sample_loads false true w2 = (Return tt, w3)
      ∧ group_frames (transmitted w2 w3) []
        = [("message-type=put;request-id=r1;late=yes;", ["abc"])].
Proof.
  split; [reflexivity|].
  destruct (control_map_serialized_at_send_time sample_dumps sample_loads sample_uuid1
              xreq_fresh 1%positive (BBytes "abc") "late" "yes")
    as (q & w1 & w2 & w3 & Hrun1 & Hset & Hrun3 & Hwire).
  - reflexivity.
  - left. discriminate.
  - exists q, w1, w2, w3. split; [exact Hrun1|]. split; [exact Hset|].
    split; [exact Hrun3|]. etransitivity; [exact Hwire|].
    injection Hrun1 as _ <-. vm_compute. reflexivity.
Defined.

(** A two-frame reply reaches the resilient client; its second frame is
    not JSON. *)
Lemma resilient_receive_reads_one_frame_witness :
  sample_loads "tail" = None
  ∧ ∃ w1 w2,
      Resilient._receive_message sample_loads
        (arrive ("request-id=r1;", ["tail"]) resilient_idle)
      = (Return (Some 2%positive), w1)
      ∧ sock_partial (w_env w1) = ["tail"]
      ∧ Resilient._receive_message sample_loads w1 = (Raise ValueError, w2).
Proof.
  split; [vm_compute; reflexivity|].
  destruct (resilient_receive_reads_one_frame sample_loads
              (arrive ("request-id=r1;", ["tail"]) resilient_idle)
              "request-id=r1;" "tail" [] [] {["request-id" := "r1"]})
    as (w1 & Hrun & _ & Hp & _ & Hnext).
  - reflexivity.
  - reflexivity.
  - vm_compute. reflexivity.
  - vm_compute. reflexivity.
  - change (sample_loads "tail") with (@None dict) in Hnext.
    destruct Hnext as (w2 & Hrun2 & _).
    exists w1, w2. split; [exact Hrun|]. split; [exact Hp | exact Hrun2].
Defined.

Lemma callback_consumes_the_message_it_drops_witness :
  sock_inbox (w_env (arrive ("request-id=r1;", []) resilient_handshaking))
    = [("request-id=r1;", [])]
  ∧ ∃ w', Resilient._pollster_callback sample_dumps sample_loads true false
            (arrive ("request-id=r1;", []) resilient_handshaking)
          = (Raise AttributeError, w')
      ∧ sock_inbox (w_env w') = [].
Proof.
  split; [reflexivity|].
  destruct (callback_consumes_the_message_it_drops sample_dumps sample_loads
              (arrive ("request-id=r1;", []) resilient_handshaking)
              "request-id=r1;" [] [] {["request-id" := "r1"]})
    as (w' & Hrun & Hi & _).
  - reflexivity.
  - reflexivity.
  - reflexivity.
  - vm_compute. reflexivity.
  - exists w'. split; [exact Hrun | exact Hi].
Defined.

(** The housekeeping task with the halt event set. *)
Lemma run_answers_its_next_invocation_witness :
  Resilient.run sample_dumps sample_uuid1 true resilient_connected
    = (Return [], (Resilient.run sample_dumps sample_uuid1 true resilient_connected).2)
  ∧ self (Resilient.run sample_dumps sample_uuid1 true resilient_connected).2
    = self resilient_connected.
Proof.
  assert (Resilient.run sample_dumps sample_uuid1 true resilient_connected
          = (Return [], (Resilient.run sample_dumps sample_uuid1 true resilient_connected).2))
    as H by reflexivity.
  split; [exact H|].
  exact (proj1 (proj2 (run_answers_its_next_invocation sample_dumps sample_uuid1 true
                         resilient_connected _ [] H))).
Defined.

(** Eleven seconds after the handshake was sent. *)
Lemma handshake_timeout_drops_the_handshake_witness :
  (Resilient._ack_timeout
   < now (w_env (at_time (Q2Qc 11) resilient_handshaking)) - Q2Qc 0)%Qc
  ∧ ∃ w', Resilient.run_handshaking_locked (at_time (Q2Qc 11) resilient_handshaking)
          = (Return tt, w')
      ∧ Resilient._pending_message (self w') = Resilient.VNone
      ∧ Resilient._send_queue (self w')
        = [Resilient.VMessage (mkMessage 1%positive BNone)].
Proof.
  assert (Resilient._ack_timeout
          < now (w_env (at_time (Q2Qc 11) resilient_handshaking)) - Q2Qc 0)%Qc as Hlate
    by (vm_compute; reflexivity).
  split; [exact Hlate|].
  destruct (handshake_timeout_drops_the_handshake
              (at_time (Q2Qc 11) resilient_handshaking) (Q2Qc 0)) as [Htimeout _].
  - discriminate.
  - reflexivity.
  - destruct (Htimeout Hlate) as (w' & Hrun & _ & _ & Hp & _ & Hq & _).
    exists w'. split; [exact Hrun|]. split; [exact Hp | exact Hq].
Defined.

Lemma mismatched_ack_leaves_the_message_pending_witness :
  Resilient._pending_message (self resilient_wrong_ack)
    = Resilient.VMessage (mkMessage 1%positive BNone)
  ∧ ∃ w', Resilient.callback_locked sample_dumps 3%positive resilient_wrong_ack
          = (Return tt, w')
      ∧ self w' = self resilient_wrong_ack.
Proof.
  split; [reflexivity|].
  destruct (mismatched_ack_leaves_the_message_pending sample_dumps resilient_wrong_ack
              3%positive (mkMessage 1%positive BNone) "r1" "zz")
    as (w' & Hrun & Hself & _).
  - reflexivity.
  - vm_compute. reflexivity.
  - vm_compute. reflexivity.
  - discriminate.
  - exists w'. split; [exact Hrun | exact Hself].
Defined.

